(** * Sunbeam: steps, plans and the deployment registry

    A shallow embedding of the step bodies of the instance-recovery
    feature, the observability plugin and the certificates step, of the
    plan runner, and of the persisted deployment registry
    ([sunbeam/core/deployments.py]).

    Python exceptions are values of [exn]; a call either returns or
    raises ([outcome]).  Code that talks to collaborators (Terraform
    helper, Juju helper, event loop) lives in the monad [M], which
    threads the event-loop state and records every collaborator call in
    a write-only trace. *)

From stdpp Require Import base option list strings gmap.
From Stdlib Require Import ZArith Lia.

Open Scope string_scope.
Open Scope list_scope.
Set Warnings "-register-all,-clear-no-such-hyp".

(** ** Python-level plumbing *)

Module py.

(** The exception classes the sources raise or catch.  [OtherException]
    stands for any class not named in an [except] clause of the sources. *)
Inductive exn : Type :=
| TerraformException (msg : string)
| JujuWaitException (msg : string)
| TimeoutException (msg : string)
| ApplicationNotFoundException (msg : string)
| ValueError (msg : string)
| ClickException (msg : string)
| OtherException (cls msg : string).

(** [str(e)] *)
Definition str (e : exn) : string :=
  match e with
  | TerraformException m | JujuWaitException m | TimeoutException m
  | ApplicationNotFoundException m | ValueError m | ClickException m
  | OtherException _ m => m
  end.

Inductive outcome (A : Type) : Type :=
| Returned (a : A)
| Raised (e : exn).
Arguments Returned {A} a.
Arguments Raised {A} e.

(** A [return] inside a [try] block leaves the function; falling off the
    end of the block continues after it. *)
Inductive flow (A : Type) : Type :=
| Fallthrough
| Return (a : A).
Arguments Fallthrough {A}.
Arguments Return {A} a.

(** Insertion-ordered dictionaries with string keys, as association
    lists without duplicate keys. *)
Section Dict.
Context {V : Type}.

Fixpoint dict_get (k : string) (d : list (string * V)) : option V :=
  match d with
  | [] => None
  | (k', v) :: d' => if decide (k' = k) then Some v else dict_get k d'
  end.

(** [d[k] = v]: an existing key keeps its position. *)
Fixpoint dict_set (k : string) (v : V) (d : list (string * V)) : list (string * V) :=
  match d with
  | [] => [(k, v)]
  | (k', v') :: d' =>
      if decide (k' = k) then (k, v) :: d' else (k', v') :: dict_set k v d'
  end.

(** [d.update(other)] *)
Definition dict_update (d other : list (string * V)) : list (string * V) :=
  foldl (fun acc kv => dict_set kv.1 kv.2 acc) d other.

End Dict.

End py.
Export py.

(** Values stored in Terraform variables and charm configuration. *)
Inductive tfval : Type :=
| VNone
| VBool (b : bool)
| VInt (z : Z)
| VStr (s : string)
| VList (l : list tfval)
| VDict (d : list (string * tfval)).

Abbreviation dict := (list (string * tfval)).

(** ** sunbeam.core.deployment *)

Module deployment.

Inductive Networks : Type := MANAGEMENT | DATA | STORAGE.

(** [Deployment.get_space] either returns the name of the Juju space
    bound to a network or raises [ValueError]. *)
Inductive space_result : Type :=
| Space (s : string)
| NoSpace (msg : string).

(** The deployment handle.  The class itself is not among the sources at
    hand: its fields are the attributes the sources read, and
    [get_space] is taken as a field, with [ValueError] as its failure,
    the only one its callers handle. *)
Record Deployment : Type := {
  name : string;
  url : string;
  type_ : string;
  openstack_machines_model : string;
  infrastructure_model : string;
  get_space : Networks -> space_result;
}.

End deployment.
Export deployment.

(** ** sunbeam.features.instance_recovery.feature: consul networks *)

Module consul.

Inductive ConsulServerNetworks : Type :=
| CSN_MANAGEMENT
| CSN_TENANT
| CSN_STORAGE.

#[global] Instance ConsulServerNetworks_eq_dec : EqDecision ConsulServerNetworks.
Proof. solve_decision. Defined.

(** [k.value] *)
Definition value (k : ConsulServerNetworks) : string :=
  match k with
  | CSN_MANAGEMENT => "management"
  | CSN_TENANT => "tenant"
  | CSN_STORAGE => "storage"
  end.

(** Iteration order of the enum, hence of [dict.fromkeys]. *)
Definition all_networks : list ConsulServerNetworks :=
  [CSN_MANAGEMENT; CSN_TENANT; CSN_STORAGE].

Abbreviation enable_dict := (list (ConsulServerNetworks * bool)).

Definition fromkeys (ks : list ConsulServerNetworks) (v : bool) : enable_dict :=
  map (fun k => (k, v)) ks.

(** [enable[k] = v] *)
Fixpoint setitem (k : ConsulServerNetworks) (v : bool) (d : enable_dict) : enable_dict :=
  match d with
  | [] => [(k, v)]
  | (k', v') :: d' =>
      if decide (k' = k) then (k, v) :: d' else (k', v') :: setitem k v d'
  end.

(** [enable.get(k)]; a missing key gives [None], which is falsy. *)
Fixpoint get (k : ConsulServerNetworks) (d : enable_dict) : option bool :=
  match d with
  | [] => None
  | (k', v) :: d' => if decide (k' = k) then Some v else get k d'
  end.

Definition truthy (o : option bool) : bool := default false o.

Definition consul_servers_to_enable (deployment : Deployment) : enable_dict :=
  let enable := fromkeys all_networks false in
  let '(management_space, enable) :=
    match get_space deployment MANAGEMENT with
    | Space s => (Some s, setitem CSN_MANAGEMENT true enable)
    | NoSpace _ => (None, enable)
    end in
  let '(storage_space, enable) :=
    match get_space deployment STORAGE with
    | Space s =>
        (Some s,
         if bool_decide (Some s ≠ management_space)
         then setitem CSN_STORAGE true enable else enable)
    | NoSpace _ => (None, enable)
    end in
  let '(tenant_space, enable) :=
    match get_space deployment DATA with
    | Space s =>
        (Some s,
         if bool_decide (Some s ∉ [management_space; storage_space])
         then setitem CSN_TENANT true enable else enable)
    | NoSpace _ => (None : option string, enable)
    end in
  enable.

(** The items of the dictionary whose value is true, in dictionary order. *)
Definition enabled_networks (deployment : Deployment) : list ConsulServerNetworks :=
  omap (fun kv : ConsulServerNetworks * bool => if kv.2 then Some kv.1 else None)
       (consul_servers_to_enable deployment).

Definition set_consul_client_application_names (deployment : Deployment) : list string :=
  map (fun k => "consul-client-" +:+ value k) (enabled_networks deployment).

(** The deployment network behind each consul network. *)
Definition network_of (k : ConsulServerNetworks) : Networks :=
  match k with
  | CSN_MANAGEMENT => MANAGEMENT
  | CSN_TENANT => DATA
  | CSN_STORAGE => STORAGE
  end.

End consul.
Export consul.

(** ** asyncio: tasks, queues and the loop driven by [run_sync] *)

Module asyncio.

(** A task is pending until it finishes on its own or a requested
    cancellation is delivered to it.  [Task.cancel] only requests the
    cancellation; the loop delivers it the next time it runs. *)
Inductive TaskState : Type :=
| Pending
| CancelRequested
| Finished
| Cancelled.

#[global] Instance TaskState_eq_dec : EqDecision TaskState.
Proof. solve_decision. Defined.

(** [task.done()] *)
Definition done (t : TaskState) : bool :=
  match t with
  | Finished | Cancelled => true
  | Pending | CancelRequested => false
  end.

(** [task.cancel()] on a task that is not done. *)
Definition cancel (t : TaskState) : TaskState :=
  match t with
  | Pending => CancelRequested
  | _ => t
  end.

(** [asyncio.Queue(maxsize)]: a [maxsize] of zero or less means an
    unbounded queue. *)
Record Queue : Type := {
  maxsize : Z;
  items : list string;
}.

Definition new_queue (maxsize : Z) : Queue := {| maxsize := maxsize; items := [] |}.

Definition qsize (q : Queue) : Z := Z.of_nat (length (items q)).

(** [Queue.full()] *)
Definition full (q : Queue) : bool :=
  if (maxsize q <=? 0)%Z then false else (maxsize q <=? qsize q)%Z.

(** The number of items a queue holds at most; [None] when unbounded. *)
Definition capacity (q : Queue) : option Z :=
  if (maxsize q <=? 0)%Z then None else Some (maxsize q).

(** The event loop: its tasks and queues by number, and what the
    scheduler will do: [finishes t] tells whether task [t] runs to its
    end on its own the next time the loop runs. *)
Record Loop : Type := {
  tasks : list TaskState;
  queues : list Queue;
  finishes : nat -> bool;
}.

(** One run of the loop ([run_until_complete]): requested cancellations
    are delivered, and pending tasks may finish. *)
Definition step_task (finishes : nat -> bool) (t : nat) (s : TaskState) : TaskState :=
  match s with
  | Pending => if finishes t then Finished else Pending
  | CancelRequested => Cancelled
  | _ => s
  end.

Definition run_loop (l : Loop) : Loop :=
  {| tasks := imap (step_task (finishes l)) (tasks l);
     queues := queues l;
     finishes := finishes l |}.

End asyncio.
Export asyncio.

(** ** Collaborator calls and the step monad *)

Module effects.

(** The progress handle handed to a step. *)
Inductive Status : Type := LiveStatus.

(** The waits of the Juju helper, with their arguments. *)
Inductive wait_call : Type :=
| wait_until_desired_status
    (model : string) (apps : list string) (status : list string)
    (timeout : Z) (queue : nat)
| wait_until_active (model : string) (apps : list string) (timeout : Z)
| wait_application_ready (app model : string) (timeout : Z)
| wait_application_gone (apps : list string) (model : string) (timeout : Z)
| wait_model_gone (model : string) (timeout : Z).

Inductive event : Type :=
| EvUpdateStatus (status : option Status) (msg : string)
| EvApply (tfplan tfvar_config : string) (override_tfvars : dict) (extra_args : list string)
| EvDestroy (tfplan : string)
| EvQueue (q : nat) (maxsize : Z)
| EvTask (t : nat) (apps : list string) (queue : option nat)
| EvWait (w : wait_call)
| EvCancel (t : nat)
| EvUpdateConfig (key : string) (tfvars : dict)
| EvGetModel (model : string)
| EvDisconnect (model : string)
| EvDeploy (app charm model : string) (to : list string)
| EvRaised (e : exn).

(** A computation runs from a loop state, appends to the trace, leaves a
    loop state and returns or raises. *)
Definition M (A : Type) : Type := Loop -> list event * Loop * outcome A.

Definition ret {A} (a : A) : M A := fun l => ([], l, Returned a).

Definition bind {A B} (m : M A) (k : A -> M B) : M B :=
  fun l =>
    match m l with
    | (tr, l', Returned a) =>
        match k a l' with
        | (tr', l'', r) => (tr ++ tr', l'', r)
        end
    | (tr, l', Raised e) => (tr, l', Raised e)
    end.

Definition raise {A} (e : exn) : M A := fun l => ([], l, Raised e).

Definition emit (ev : event) : M unit := fun l => ([ev], l, Returned tt).

(** Lift a call that returns or raises without touching the loop. *)
Definition lift {A} (o : outcome A) : M A := fun l => ([], l, o).

(** A collaborator call: recorded, then its outcome; an exception it
    raises is recorded right after the call. *)
Definition call {A} (ev : event) (o : outcome A) : M A :=
  bind (emit ev)
    (fun _ =>
       match o with
       | Returned a => ret a
       | Raised e => bind (emit (EvRaised e)) (fun _ => raise e)
       end).

(** [try: body except <classes> as e: handler e]; [handler e] is [None]
    for the classes the [except] clause does not name. *)
Definition try_except {A} (body : M A) (handler : exn -> option (M A)) : M A :=
  fun l =>
    match body l with
    | (tr, l', Raised e) =>
        match handler e with
        | Some h =>
            match h l' with
            | (tr', l'', r) => (tr ++ tr', l'', r)
            end
        | None => (tr, l', Raised e)
        end
    | r => r
    end.

(** [try: body finally: fin]; [fin] runs on every way out of [body], and
    an exception raised by [fin] replaces the pending result. *)
Definition try_finally {A} (body : M A) (fin : M unit) : M A :=
  fun l =>
    match body l with
    | (tr, l', r) =>
        match fin l' with
        | (tr', l'', Returned _) => (tr ++ tr', l'', r)
        | (tr', l'', Raised e) => (tr ++ tr', l'', Raised e)
        end
    end.

(** What follows a [try] statement whose branches may [return]. *)
Definition after_try {A} (f : flow A) (rest : M A) : M A :=
  match f with
  | Return a => ret a
  | Fallthrough => rest
  end.

Definition trace_of {A} (r : list event * Loop * outcome A) : list event := r.1.1.
Definition loop_of {A} (r : list event * Loop * outcome A) : Loop := r.1.2.
Definition result_of {A} (r : list event * Loop * outcome A) : outcome A := r.2.

(** [asyncio.Queue(maxsize=n)] *)
Definition Queue_new (n : Z) : M nat :=
  fun l =>
    let q := length (queues l) in
    ([EvQueue q n],
     {| tasks := tasks l; queues := queues l ++ [new_queue n]; finishes := finishes l |},
     Returned q).

(** [run_sync(coro)] runs the loop until [coro] is complete. *)
Definition run_sync {A} (coro : M A) : M A :=
  fun l =>
    match coro l with
    | (tr, l', r) => (tr, run_loop l', r)
    end.

(** [task.done()] *)
Definition task_done (t : nat) : M bool :=
  fun l => ([], l, Returned (from_option done true (tasks l !! t))).

(** [task.cancel()] *)
Definition task_cancel (t : nat) : M unit :=
  fun l =>
    ([EvCancel t],
     {| tasks := alter cancel t (tasks l); queues := queues l; finishes := finishes l |},
     Returned tt).

End effects.
Export effects.

#[global] Instance M_ret : MRet M := @effects.ret.
#[global] Instance M_bind : MBind M := fun A B k m => effects.bind m k.

(** ** sunbeam.core.common (names used by the steps) *)

Module common.

Inductive ResultType : Type := COMPLETED | FAILED | SKIPPED.

#[global] Instance ResultType_eq_dec : EqDecision ResultType.
Proof. solve_decision. Defined.

(** [Result(result_type, message)]; the message may be left out, which
    leaves it empty. *)
Record Result : Type := mkResult {
  result_type : ResultType;
  message : string;
}.

#[global] Instance Result_eq_dec : EqDecision Result.
Proof. solve_decision. Defined.

Definition Result_ (rt : ResultType) : Result := mkResult rt "".

(** A step: a skip check and a body.  The default skip check always
    proceeds. *)
Record BaseStep : Type := {
  step_name : string;
  description : string;
  is_skip : option Status -> M Result;
  run : option Status -> M Result;
}.

Definition default_is_skip (status : option Status) : M Result :=
  mret (Result_ COMPLETED).

(** [BaseStep.update_status]: refreshes the progress display. *)
Definition update_status (status : option Status) (msg : string) : M unit :=
  emit (EvUpdateStatus status msg).

(** [update_status_background(step, apps, queue, status)]: starts the
    polling task on the loop and hands it back. *)
Definition update_status_background
    (apps : list string) (queue : option nat) (status : option Status) : M nat :=
  fun l =>
    let t := length (tasks l) in
    ([EvTask t apps queue],
     {| tasks := tasks l ++ [Pending]; queues := queues l; finishes := finishes l |},
     Returned t).

(** [update_config(client, key, config)] *)
Definition update_config (key : string) (config : dict) : M unit :=
  emit (EvUpdateConfig key config).

End common.
Export common.

(** ** Collaborators: Terraform helper, Juju helper, manifest *)

Module terraform.

(** The Terraform helper of one plan: what its calls return or raise. *)
Record TerraformHelper : Type := {
  plan : string;
  backend : string;
  backend_config : outcome dict;
  update_tfvars_and_apply_tf : string -> dict -> outcome unit;
  destroy : outcome unit;
}.

Definition apply_tf (tfhelper : TerraformHelper) (tfvar_config : string)
    (override_tfvars : dict) : M unit :=
  call (EvApply (plan tfhelper) tfvar_config override_tfvars [])
       (update_tfvars_and_apply_tf tfhelper tfvar_config override_tfvars).

Definition destroy_tf (tfhelper : TerraformHelper) : M unit :=
  call (EvDestroy (plan tfhelper)) (destroy tfhelper).

End terraform.
Export terraform.

Module juju.

(** A connected Juju model: its applications, and what closing the
    connection does. *)
Record Model : Type := {
  model_name : string;
  applications : list string;
  disconnect : outcome unit;
}.

(** The Juju helper: what its waits and queries return or raise. *)
Record JujuHelper : Type := {
  wait : wait_call -> outcome unit;
  get_application_names : string -> outcome (list string);
  get_model : string -> outcome Model;
  get_machines : Model -> outcome (list string);
  deploy : string -> string -> string -> list string -> outcome unit;
}.

(** Modelled from the spec: [JujuHelper.get_application] is not among the
    sources at hand.  It looks the application up in the model and raises
    [ApplicationNotFoundException] when the model has none of that name. *)
Definition get_application (jhelper : JujuHelper) (app : string) (model : Model)
  : outcome string :=
  if bool_decide (app ∈ applications model) then Returned app
  else Raised (ApplicationNotFoundException
                 ("Application missing from model: " +:+ app)).

Definition wait_for (jhelper : JujuHelper) (w : wait_call) : M unit :=
  run_sync (call (EvWait w) (wait jhelper w)).

End juju.
Export juju.

Module manifest.

(** [config-map] is the one extra field the sources read from
    [model_extra]: per consul network, a configuration dictionary. *)
Record CharmManifest : Type := {
  channel : option string;
  revision : option Z;
  config : option dict;
  model_extra : option (list (string * list (string * dict)));
}.

Record SoftwareConfig : Type := {
  charms : list (string * CharmManifest);
}.

Record FeatureManifest : Type := {
  software : SoftwareConfig;
}.

Record Manifest : Type := {
  core : FeatureManifest;
  get_feature : string -> option FeatureManifest;
}.

End manifest.
Export manifest.

(** ** The [except] and [finally] clauses the step bodies share *)

Module clauses.

(** [except TerraformException as e: return Result(FAILED, str(e))] *)
Definition on_terraform_error (e : exn) : option (M (flow Result)) :=
  match e with
  | TerraformException _ => Some (mret (Return (mkResult FAILED (str e))))
  | _ => None
  end.

(** [except (JujuWaitException, TimeoutException) as e: ...] *)
Definition on_wait_error (e : exn) : option (M (flow Result)) :=
  match e with
  | JujuWaitException _ | TimeoutException _ =>
      Some (mret (Return (mkResult FAILED (str e))))
  | _ => None
  end.

(** [except TimeoutException as e: ...] *)
Definition on_timeout (e : exn) : option (M (flow Result)) :=
  match e with
  | TimeoutException _ => Some (mret (Return (mkResult FAILED (str e))))
  | _ => None
  end.

(** [finally: if not task.done(): task.cancel()] *)
Definition cancel_unless_done (task : nat) : M unit :=
  d ← task_done task;
  if d : bool then mret tt else task_cancel task.

End clauses.
Export clauses.

(** ** sunbeam.features.instance_recovery.feature: the steps *)

Module instance_recovery.

Definition CONSUL_MANAGEMENT_SERF_LAN_PORT : Z := 30301.
Definition CONSUL_TENANT_SERF_LAN_PORT : Z := 30311.
Definition CONSUL_STORAGE_SERF_LAN_PORT : Z := 30321.
Definition CONSUL_CLIENT_MANAGEMENT_SERF_LAN_PORT : Z := 8301.
Definition CONSUL_CLIENT_TENANT_SERF_LAN_PORT : Z := 8311.
Definition CONSUL_CLIENT_STORAGE_SERF_LAN_PORT : Z := 8321.

Definition CONSUL_CLIENT_TFPLAN : string := "consul-client-plan".
Definition CONSUL_CLIENT_CONFIG_KEY : string := "TerraformVarsFeatureConsulPlanConsulClient".
Definition PRINCIPAL_APP : string := "openstack-hypervisor".

(** The feature object, as far as the steps use it.  The two timeouts
    come from the parent class, which is not among the sources. *)
Record InstanceRecoveryFeature : Type := {
  feature_manifest : Manifest;
  set_application_timeout_on_enable : Z;
  set_application_timeout_on_disable : Z;
}.

Definition feature_name : string := "instance-recovery".

Definition get_config_from_manifest (self : InstanceRecoveryFeature)
    (charm : string) (network : ConsulServerNetworks) : dict :=
  match get_feature (feature_manifest self) feature_name with
  | None => []
  | Some feature_manifest =>
      match dict_get charm (charms (software feature_manifest)) with
      | None => []
      | Some charm_manifest =>
          let config_ : dict := [] in
          let config_ :=
            match config charm_manifest with
            | Some ((_ :: _) as c) => dict_update config_ c
            | _ => config_
            end in
          let config_ :=
            match model_extra charm_manifest with
            | Some ((_ :: _) as extra) =>
                dict_update config_
                  (default [] (dict_get ("consul-" +:+ value network)
                                 (default [] (dict_get "config-map" extra))))
            | _ => config_
            end in
          config_
      end
  end.

Definition set_tfvars_on_disable (self : InstanceRecoveryFeature)
    (deployment : Deployment) : dict :=
  [("enable-masakari", VBool false);
   ("enable-consul-management", VBool false);
   ("enable-consul-tenant", VBool false);
   ("enable-consul-storage", VBool false)].

(** [deployment.get_space(network)] where a [ValueError] is not caught. *)
Definition space (deployment : Deployment) (n : Networks) : M string :=
  lift (match get_space deployment n with
        | Space s => Returned s
        | NoSpace msg => Raised (ValueError msg)
        end).

Record DeployConsulClientStep : Type := {
  dc_deployment : Deployment;
  dc_feature : InstanceRecoveryFeature;
  dc_tfhelper : TerraformHelper;
  dc_openstack_tfhelper : TerraformHelper;
  dc_jhelper : JujuHelper;
  dc_app_desired_status : list string;
}.

Definition dc_model (self : DeployConsulClientStep) : string :=
  openstack_machines_model (dc_deployment self).

(** One of the three per-network blocks of [_get_tfvars]: [key] is the
    consul application, [port] its serf LAN port and [bound] the network
    its [consul] endpoint is bound to. *)
Definition network_block (self : DeployConsulClientStep)
    (servers_to_enable : enable_dict) (network : ConsulServerNetworks)
    (key : string) (port : Z) (bound : Networks)
    (acc : dict * dict * dict) : M (dict * dict * dict) :=
  let '(tfvars, consul_config_map, consul_endpoint_bindings_map) := acc in
  if truthy (get network servers_to_enable) then
    let tfvars := dict_set ("enable-" +:+ key) (VBool true) tfvars in
    let _config := [("serf-lan-port", VInt port)] in
    let _config :=
      dict_update _config
        (get_config_from_manifest (dc_feature self) "consul-client" network) in
    let consul_config_map := dict_set key (VDict _config) consul_config_map in
    s1 ← space (dc_deployment self) MANAGEMENT;
    s2 ← space (dc_deployment self) bound;
    mret (tfvars, consul_config_map,
          dict_set key
            (VList [VDict [("space", VStr s1)];
                    VDict [("endpoint", VStr "consul"); ("space", VStr s2)]])
            consul_endpoint_bindings_map)
  else
    mret (dict_set ("enable-" +:+ key) (VBool false) tfvars,
          consul_config_map, consul_endpoint_bindings_map).

Definition _get_tfvars (self : DeployConsulClientStep) : M dict :=
  openstack_backend_config ← lift (backend_config (dc_openstack_tfhelper self));
  let tfvars : dict :=
    [("principal-application-model", VStr (dc_model self));
     ("principal-application", VStr PRINCIPAL_APP);
     ("openstack-state-backend", VStr (backend (dc_openstack_tfhelper self)));
     ("openstack-state-config", VDict openstack_backend_config)] in
  let servers_to_enable := consul_servers_to_enable (dc_deployment self) in
  acc ← network_block self servers_to_enable CSN_MANAGEMENT "consul-management"
          CONSUL_CLIENT_MANAGEMENT_SERF_LAN_PORT MANAGEMENT (tfvars, [], []);
  acc ← network_block self servers_to_enable CSN_TENANT "consul-tenant"
          CONSUL_CLIENT_TENANT_SERF_LAN_PORT DATA acc;
  acc ← network_block self servers_to_enable CSN_STORAGE "consul-storage"
          CONSUL_CLIENT_STORAGE_SERF_LAN_PORT STORAGE acc;
  let '(tfvars, consul_config_map, consul_endpoint_bindings_map) := acc in
  let tfvars := dict_set "consul-config-map" (VDict consul_config_map) tfvars in
  let tfvars :=
    dict_set "consul-endpoint-bindings-map" (VDict consul_endpoint_bindings_map) tfvars in
  mret tfvars.

(** The wait of [DeployConsulClientStep.run], on queue [queue]. *)
Definition dc_wait_call (self : DeployConsulClientStep) (apps : list string)
    (queue : nat) : wait_call :=
  wait_until_desired_status (dc_model self) apps (dc_app_desired_status self)
    (set_application_timeout_on_enable (dc_feature self)) queue.

Definition DeployConsulClientStep_run (self : DeployConsulClientStep)
    (status : option Status) : M Result :=
  extra_tfvars ← _get_tfvars self;
  r ← try_except
        (update_status status "deploying services";;
         apply_tf (dc_tfhelper self) CONSUL_CLIENT_CONFIG_KEY extra_tfvars;;
         mret Fallthrough)
        on_terraform_error;
  after_try r
    (let apps := set_consul_client_application_names (dc_deployment self) in
     queue ← Queue_new (Z.of_nat (length apps));
     task ← run_sync (update_status_background apps (Some queue) status);
     r ← try_finally
           (try_except
              (wait_for (dc_jhelper self) (dc_wait_call self apps queue);;
               mret Fallthrough)
              on_wait_error)
           (cancel_unless_done task);
     after_try r (mret (Result_ COMPLETED))).

Record RemoveConsulClientStep : Type := {
  rc_deployment : Deployment;
  rc_feature : InstanceRecoveryFeature;
  rc_tfhelper : TerraformHelper;
  rc_jhelper : JujuHelper;
}.

Definition RemoveConsulClientStep_run (self : RemoveConsulClientStep)
    (status : option Status) : M Result :=
  r ← try_except (destroy_tf (rc_tfhelper self);; mret Fallthrough)
        on_terraform_error;
  after_try r
    (let apps := set_consul_client_application_names (rc_deployment self) in
     r ← try_except
           (wait_for (rc_jhelper self)
              (wait_application_gone apps
                 (openstack_machines_model (rc_deployment self))
                 (set_application_timeout_on_disable (rc_feature self)));;
            mret Fallthrough)
           on_timeout;
     after_try r
       (let extra_tfvars := set_tfvars_on_disable (rc_feature self) (rc_deployment self) in
        update_config CONSUL_CLIENT_CONFIG_KEY extra_tfvars;;
        mret (Result_ COMPLETED))).

End instance_recovery.
Export instance_recovery.

(** ** sunbeam.plugins.observability.plugin: the steps *)

Module observability.

Definition OBSERVABILITY_MODEL : string := "observability".
Definition OBSERVABILITY_DEPLOY_TIMEOUT : Z := 1200.
Definition COS_TFPLAN : string := "cos-plan".
Definition GRAFANA_AGENT_TFPLAN : string := "grafana-agent-plan".
Definition COS_CONFIG_KEY : string := "TerraformVarsPluginObservabilityPlanCos".
Definition GRAFANA_AGENT_CONFIG_KEY : string :=
  "TerraformVarsPluginObservabilityPlanGrafanaAgent".

(** The manifest object of the plugin interface: it applies a plan by
    name and hands out the helper of a plan. *)
Record PluginManifest : Type := {
  manifest_apply : string -> string -> dict -> list string -> outcome unit;
  get_tfhelper : string -> outcome TerraformHelper;
}.

(** The plugin object, as far as the steps use it.  The proxy helpers of
    [sunbeam.jobs.common] and the constants of [sunbeam.commands.microk8s]
    are not among the sources and are taken as fields. *)
Record ObservabilityPlugin : Type := {
  plugin_deployment : Deployment;
  plugin_manifest : PluginManifest;
  get_proxy_settings : outcome dict;
  convert_proxy_to_model_configs : dict -> dict;
  CREDENTIAL_SUFFIX : string;
  MICROK8S_CLOUD : string;
  MICROK8S_DEFAULT_STORAGECLASS : string;
}.

Definition tfplan_cos (plugin : ObservabilityPlugin) : string := COS_TFPLAN.
Definition tfplan_grafana_agent (plugin : ObservabilityPlugin) : string :=
  GRAFANA_AGENT_TFPLAN.

Definition apply_plan (manifest : PluginManifest) (tfplan tfvar_config : string)
    (override_tfvars : dict) (tf_apply_extra_args : list string) : M unit :=
  call (EvApply tfplan tfvar_config override_tfvars tf_apply_extra_args)
       (manifest_apply manifest tfplan tfvar_config override_tfvars tf_apply_extra_args).

(** The Terraform variables of the observability model. *)
Definition cos_tfvars (plugin : ObservabilityPlugin) : M dict :=
  proxy_settings ← lift (get_proxy_settings plugin);
  let model_config := convert_proxy_to_model_configs plugin proxy_settings in
  let model_config :=
    dict_update model_config
      [("workload-storage", VStr (MICROK8S_DEFAULT_STORAGECLASS plugin))] in
  mret [("model", VStr OBSERVABILITY_MODEL);
        ("cloud", VStr (MICROK8S_CLOUD plugin));
        ("credential", VStr (MICROK8S_CLOUD plugin +:+ CREDENTIAL_SUFFIX plugin));
        ("config", VDict model_config)].

Record ObservabilityStep : Type := {
  os_plugin : ObservabilityPlugin;
  os_jhelper : JujuHelper;
}.

Definition DeployObservabilityStackStep_run (self : ObservabilityStep)
    (status : option Status) : M Result :=
  extra_tfvars ← cos_tfvars (os_plugin self);
  r ← try_except
        (update_status status "deploying services";;
         apply_plan (plugin_manifest (os_plugin self)) (tfplan_cos (os_plugin self))
           COS_CONFIG_KEY extra_tfvars [];;
         mret Fallthrough)
        on_terraform_error;
  after_try r
    (apps ← run_sync (lift (get_application_names (os_jhelper self) OBSERVABILITY_MODEL));
     task ← run_sync (update_status_background apps None status);
     r ← try_finally
           (try_except
              (wait_for (os_jhelper self)
                 (wait_until_active OBSERVABILITY_MODEL apps OBSERVABILITY_DEPLOY_TIMEOUT);;
               mret Fallthrough)
              on_wait_error)
           (cancel_unless_done task);
     after_try r (mret (Result_ COMPLETED))).

Definition UpdateObservabilityModelConfigStep_run (plugin : ObservabilityPlugin)
    (status : option Status) : M Result :=
  extra_tfvars ← cos_tfvars plugin;
  r ← try_except
        (apply_plan (plugin_manifest plugin) (tfplan_cos plugin)
           COS_CONFIG_KEY extra_tfvars ["-target=juju_model.cos"];;
         mret Fallthrough)
        on_terraform_error;
  after_try r (mret (Result_ COMPLETED)).

Definition DeployGrafanaAgentStep_run (self : ObservabilityStep)
    (status : option Status) : M Result :=
  let model := infrastructure_model (plugin_deployment (os_plugin self)) in
  tfhelper_cos ← lift (get_tfhelper (plugin_manifest (os_plugin self)) COS_TFPLAN);
  let cos_backend := backend tfhelper_cos in
  cos_backend_config ← lift (backend_config tfhelper_cos);
  let extra_tfvars : dict :=
    [("principal-application-model", VStr model);
     ("cos-state-backend", VStr cos_backend);
     ("cos-state-config", VDict cos_backend_config);
     ("principal-application", VStr "openstack-hypervisor")] in
  r ← try_except
        (update_status status "deploying services";;
         apply_plan (plugin_manifest (os_plugin self))
           (tfplan_grafana_agent (os_plugin self))
           GRAFANA_AGENT_CONFIG_KEY extra_tfvars [];;
         mret Fallthrough)
        on_terraform_error;
  after_try r
    (let app := "grafana-agent" in
     r ← try_except
           (wait_for (os_jhelper self)
              (wait_application_ready app model OBSERVABILITY_DEPLOY_TIMEOUT);;
            mret Fallthrough)
           on_wait_error;
     after_try r (mret (Result_ COMPLETED))).

Definition RemoveObservabilityStackStep_run (self : ObservabilityStep)
    (status : option Status) : M Result :=
  tfhelper ← lift (get_tfhelper (plugin_manifest (os_plugin self))
                     (tfplan_cos (os_plugin self)));
  r ← try_except (destroy_tf tfhelper;; mret Fallthrough) on_terraform_error;
  after_try r
    (r ← try_except
           (wait_for (os_jhelper self)
              (wait_model_gone OBSERVABILITY_MODEL OBSERVABILITY_DEPLOY_TIMEOUT);;
            mret Fallthrough)
           on_timeout;
     after_try r (mret (Result_ COMPLETED))).

Definition RemoveGrafanaAgentStep_run (self : ObservabilityStep)
    (status : option Status) : M Result :=
  let model := infrastructure_model (plugin_deployment (os_plugin self)) in
  tfhelper ← lift (get_tfhelper (plugin_manifest (os_plugin self))
                     (tfplan_grafana_agent (os_plugin self)));
  r ← try_except (destroy_tf tfhelper;; mret Fallthrough) on_terraform_error;
  after_try r
    (let apps := ["grafana-agent"] in
     r ← try_except
           (wait_for (os_jhelper self)
              (wait_application_gone apps model OBSERVABILITY_DEPLOY_TIMEOUT);;
            mret Fallthrough)
           on_timeout;
     after_try r (mret (Result_ COMPLETED))).

End observability.
Export observability.

(** ** sunbeam.steps.certificates *)

Module certificates.

Definition APPLICATION : string := "tls-operator".
Definition CHARM : string := "sunbeam-ssc".
Definition CERTIFICATES_APP_TIMEOUT : Z := 1200.

Record DeployCertificatesProviderApplicationStep : Type := {
  cp_jhelper : JujuHelper;
  cp_manifest : Manifest;
  cp_model : string;
}.

Definition cp_app (self : DeployCertificatesProviderApplicationStep) : string :=
  APPLICATION.

(** [except ApplicationNotFoundException: return Result(COMPLETED)] *)
Definition on_application_not_found (e : exn) : option (M (flow Result)) :=
  match e with
  | ApplicationNotFoundException _ => Some (mret (Return (Result_ COMPLETED)))
  | _ => None
  end.

Definition connect (jhelper : JujuHelper) (model : string) : M Model :=
  run_sync (call (EvGetModel model) (get_model jhelper model)).

Definition close (model : Model) : M unit :=
  run_sync (call (EvDisconnect (model_name model)) (disconnect model)).

Definition DeployCertificatesProviderApplicationStep_is_skip
    (self : DeployCertificatesProviderApplicationStep)
    (status : option Status) : M Result :=
  model ← connect (cp_jhelper self) (cp_model self);
  r ← try_finally
        (try_except
           (run_sync (lift (get_application (cp_jhelper self) (cp_app self) model));;
            mret Fallthrough)
           on_application_not_found)
        (close model);
  after_try r (mret (Result_ SKIPPED)).

Definition DeployCertificatesProviderApplicationStep_run
    (self : DeployCertificatesProviderApplicationStep)
    (status : option Status) : M Result :=
  update_status status "fetching infra machines";;
  model ← connect (cp_jhelper self) (cp_model self);
  machines ← run_sync (lift (get_machines (cp_jhelper self) model));
  close model;;
  if bool_decide (length machines = 0) then
    mret (mkResult FAILED ("No machines found in " +:+ cp_model self +:+ " model"))
  else
    let machines := take 1 machines in
    update_status status "deploying application";;
    charm_manifest ←
      lift (match dict_get CHARM (charms (software (core (cp_manifest self)))) with
            | Some c => Returned c
            | None => Raised (OtherException "KeyError" CHARM)
            end);
    run_sync (call (EvDeploy APPLICATION CHARM (cp_model self) machines)
                (deploy (cp_jhelper self) APPLICATION CHARM (cp_model self) machines));;
    apps ← run_sync (lift (get_application_names (cp_jhelper self) (cp_model self)));
    r ← try_except
          (wait_for (cp_jhelper self)
             (wait_until_active (cp_model self) apps CERTIFICATES_APP_TIMEOUT);;
           mret Fallthrough)
          on_wait_error;
    after_try r (mret (Result_ COMPLETED)).

End certificates.
Export certificates.

(** ** The steps of the sources, as one type *)

Module steps.

Inductive Step : Type :=
| DeployConsulClient (self : DeployConsulClientStep)
| RemoveConsulClient (self : RemoveConsulClientStep)
| DeployObservabilityStack (self : ObservabilityStep)
| UpdateObservabilityModelConfig (plugin : ObservabilityPlugin)
| DeployGrafanaAgent (self : ObservabilityStep)
| RemoveObservabilityStack (self : ObservabilityStep)
| RemoveGrafanaAgent (self : ObservabilityStep)
| DeployCertificatesProviderApplication
    (self : DeployCertificatesProviderApplicationStep).

Definition run_of (s : Step) : option Status -> M Result :=
  match s with
  | DeployConsulClient self => DeployConsulClientStep_run self
  | RemoveConsulClient self => RemoveConsulClientStep_run self
  | DeployObservabilityStack self => DeployObservabilityStackStep_run self
  | UpdateObservabilityModelConfig plugin => UpdateObservabilityModelConfigStep_run plugin
  | DeployGrafanaAgent self => DeployGrafanaAgentStep_run self
  | RemoveObservabilityStack self => RemoveObservabilityStackStep_run self
  | RemoveGrafanaAgent self => RemoveGrafanaAgentStep_run self
  | DeployCertificatesProviderApplication self =>
      DeployCertificatesProviderApplicationStep_run self
  end.

(** Only the certificates step overrides the skip check. *)
Definition is_skip_of (s : Step) : option Status -> M Result :=
  match s with
  | DeployCertificatesProviderApplication self =>
      DeployCertificatesProviderApplicationStep_is_skip self
  | _ => default_is_skip
  end.

Definition names_of (s : Step) : string * string :=
  match s with
  | DeployConsulClient _ => ("Deploy Consul Client", "Deploy Consul Client")
  | RemoveConsulClient _ => ("Remove Consul Client", "Removing Consul Client")
  | DeployObservabilityStack _ =>
      ("Deploy Observability Stack", "Deploying Observability Stack")
  | UpdateObservabilityModelConfig _ =>
      ("Update Observability Model Config",
       "Updating Observability proxy related model config")
  | DeployGrafanaAgent _ => ("Deploy Grafana Agent", "Deploy Grafana Agent")
  | RemoveObservabilityStack _ =>
      ("Remove Observability Stack", "Removing Observability Stack")
  | RemoveGrafanaAgent _ => ("Remove Grafana Agent", "Removing Grafana Agent")
  | DeployCertificatesProviderApplication _ =>
      ("Deploy tls operator", "Deploying TLS Operator")
  end.

Definition as_BaseStep (s : Step) : BaseStep :=
  {| step_name := (names_of s).1;
     description := (names_of s).2;
     is_skip := is_skip_of s;
     run := run_of s |}.

(** The exception a provisioning call (apply or destroy) raised, read off
    the trace. *)
Fixpoint provisioning_raised (tr : list event) : option exn :=
  match tr with
  | [] => None
  | ev :: tr' =>
      match ev, tr' with
      | EvApply _ _ _ _, EvRaised e :: _ => Some e
      | EvDestroy _, EvRaised e :: _ => Some e
      | _, _ => provisioning_raised tr'
      end
  end.



End steps.
Export steps.

(** ** The plan runner *)

Module plan.

(** What the runner does, step by step; [i] is the position of the step
    in the plan.  The calls a step makes itself appear under [InStep]. *)
Inductive plan_event : Type :=
| IsSkipCalled (i : nat)
| IsSkipReturned (i : nat) (r : outcome Result)
| SkipLogged (i : nat)
| RunCalled (i : nat)
| RunReturned (i : nat) (r : outcome Result)
| InStep (i : nat) (ev : event)
| Display (msg : string)
| DisplayDetail (msg : string).

(** How a plan ends: all steps went through, a step failed, or an
    unexpected exception crossed the runner. *)
Inductive plan_result : Type :=
| PlanSucceeded
| PlanFailed (msg : string)
| PlanCrashed (e : exn).

(** The step an event belongs to; the two display events belong to none. *)
Definition step_of (ev : plan_event) : option nat :=
  match ev with
  | IsSkipCalled i | IsSkipReturned i _ | SkipLogged i | RunCalled i
  | RunReturned i _ | InStep i _ => Some i
  | Display _ | DisplayDetail _ => None
  end.

Definition invoke (i : nat) (m : M Result) (l : Loop)
  : list plan_event * Loop * outcome Result :=
  match m l with
  | (tr, l', r) => (InStep i <$> tr, l', r)
  end.

Definition fail_plan (verbose : bool) (msg : string) : list plan_event :=
  Display msg :: (if verbose then [DisplayDetail msg] else []).

(** Modelled from the spec: [run_plan] of [sunbeam.core.common] is not
    among the sources at hand.  For each step in order: call [is_skip];
    on SKIPPED record the skip and advance without calling [run];
    otherwise call [run]; on FAILED abort the remaining steps, display
    the message and signal failure; otherwise continue.  An [is_skip]
    that raises is treated as FAILED; an exception out of [run] is a
    defect and crosses the runner. *)
Fixpoint run_plan_from (i : nat) (steps : list BaseStep) (verbose : bool)
    (l : Loop) : list plan_event * Loop * plan_result :=
  match steps with
  | [] => ([], l, PlanSucceeded)
  | step :: rest =>
      let '(tr1, l1, skip_result) := invoke i (is_skip step (Some LiveStatus)) l in
      let tr1 := IsSkipCalled i :: tr1 ++ [IsSkipReturned i skip_result] in
      match skip_result with
      | Raised e => (tr1 ++ fail_plan verbose (str e), l1, PlanFailed (str e))
      | Returned sr =>
          if decide (result_type sr = SKIPPED) then
            let '(tr, l', r) := run_plan_from (S i) rest verbose l1 in
            (tr1 ++ SkipLogged i :: tr, l', r)
          else
            let '(tr2, l2, result) := invoke i (run step (Some LiveStatus)) l1 in
            let tr2 := RunCalled i :: tr2 ++ [RunReturned i result] in
            match result with
            | Raised e => (tr1 ++ tr2, l2, PlanCrashed e)
            | Returned rr =>
                if decide (result_type rr = FAILED) then
                  (tr1 ++ tr2 ++ fail_plan verbose (message rr), l2,
                   PlanFailed (message rr))
                else
                  let '(tr, l', r) := run_plan_from (S i) rest verbose l2 in
                  (tr1 ++ tr2 ++ tr, l', r)
            end
      end
  end.

Definition run_plan (steps : list BaseStep) (verbose : bool) (l : Loop)
  : list plan_event * Loop * plan_result :=
  run_plan_from 0 steps verbose l.

End plan.
Export plan.

(** ** sunbeam.core.deployments and the file system under it *)

Module fs.

Record file : Type := {
  data : string;
  mode : Z;
}.

(** Permission bits are written in octal in the sources. *)
Definition octal (digits : list Z) : Z :=
  foldl (fun acc d => (8 * acc + d)%Z) 0%Z digits.

(** The system calls behind the library calls of the sources. *)
Inductive fs_op : Type :=
| Mkdir (path : string)
| OpenW (path : string) (mode : Z)
| OpenCreat (path : string) (mode : Z)
| WriteData (path : string) (s : string)
| CopyData (src dst : string)
| CopyMode (src dst : string)
| Chmod (path : string) (mode : Z)
| Unlink (path : string).

(** The mode a new file gets: the requested bits the umask lets through. *)
Definition masked (umask mode : Z) : Z := Z.land mode (Z.lnot umask).

Definition exec_op (umask : Z) (op : fs_op) (fs : gmap string file) : gmap string file :=
  match op with
  | Mkdir _ => fs
  | OpenW p m =>
      (* open for writing: an existing file is truncated and keeps its
         mode, a missing one is created *)
      match fs !! p with
      | Some f => <[p := {| data := ""; mode := mode f |}]> fs
      | None => <[p := {| data := ""; mode := masked umask m |}]> fs
      end
  | OpenCreat p m =>
      (* open with O_CREAT only: an existing file is left as it is *)
      match fs !! p with
      | Some _ => fs
      | None => <[p := {| data := ""; mode := masked umask m |}]> fs
      end
  | WriteData p s =>
      alter (fun f => {| data := data f +:+ s; mode := mode f |}) p fs
  | CopyData src dst =>
      match fs !! src with
      | Some f => alter (fun g => {| data := data g +:+ data f; mode := mode g |}) dst fs
      | None => fs
      end
  | CopyMode src dst =>
      match fs !! src with
      | Some f => alter (fun g => {| data := data g; mode := mode f |}) dst fs
      | None => fs
      end
  | Chmod p m => alter (fun f => {| data := data f; mode := m |}) p fs
  | Unlink p => delete p fs
  end.

Definition exec (umask : Z) (ops : list fs_op) (fs : gmap string file) : gmap string file :=
  foldl (fun fs op => exec_op umask op fs) fs ops.

(** [tempfile.NamedTemporaryFile("w")] under the name [tmp]. *)
Definition NamedTemporaryFile (tmp : string) : list fs_op := [OpenW tmp (octal [6;0;0]%Z)].

(** Writing [s] to the open temporary file and flushing it. *)
Definition dump_and_flush (tmp s : string) : list fs_op := [WriteData tmp s].

(** [shutil.copy(src, dst)]: [copyfile], which opens the destination for
    writing and fills it, followed by [copymode]. *)
Definition shutil_copy (src dst : string) : list fs_op :=
  [OpenW dst (octal [6;6;6]%Z); CopyData src dst; CopyMode src dst].



End fs.
Export fs.

Module deployments.

Section registry.

(** [yaml.safe_dump] of the dictionary [{active, deployments}], and the
    constant [SHARE_PATH] of [sunbeam.core.common]: neither is among the
    sources at hand. *)
Variable safe_dump : option string -> list Deployment -> string.
Variable SHARE_PATH : string.


Record DeploymentsConfig : Type := {
  active : option string;
  deployments : list Deployment;
  _path : option string;
}.

(** The property [path]. *)
Definition path (self : DeploymentsConfig) : outcome string :=
  match _path self with
  | None => Raised (ValueError "Path not set.")
  | Some p => Returned p
  end.

(** The system calls of [write], in order; [tmp] is the name the
    temporary file gets. *)
Definition write_ops (self : DeploymentsConfig) (tmp : string) : outcome (list fs_op) :=
  match path self with
  | Raised e => Raised e
  | Returned p =>
      Returned
        (NamedTemporaryFile tmp
         ++ dump_and_flush tmp (safe_dump (active self) (deployments self))
         ++ shutil_copy tmp p
         ++ [Unlink tmp]
         ++ [Chmod p (octal [6;0;0]%Z)])
  end.

Definition write (umask : Z) (tmp : string) (self : DeploymentsConfig)
    (fs : gmap string file) : gmap string file * outcome unit :=
  match write_ops self tmp with
  | Raised e => (fs, Raised e)
  | Returned ops => (exec umask ops fs, Returned tt)
  end.


Fixpoint find_deployment (ds : list Deployment) (n : string) : option Deployment :=
  match ds with
  | [] => None
  | deployment :: ds' =>
      if decide (name deployment = n) then Some deployment
      else find_deployment ds' n
  end.

Definition get_deployment (self : DeploymentsConfig) (n : string) : outcome Deployment :=
  match find_deployment (deployments self) n with
  | Some deployment => Returned deployment
  | None => Raised (ValueError ("Deployment " +:+ n +:+ " not found in deployments."))
  end.

(** Truth value of [self.active]: [None] and the empty text are falsy. *)
Definition falsy (a : option string) : bool :=
  match a with
  | None => true
  | Some s => bool_decide (s = "")
  end.

Definition get_active (self : DeploymentsConfig) : outcome Deployment :=
  let active := active self in
  if falsy active then Raised (ValueError "No active deployment found.")
  else
    let active := default "" active in
    match get_deployment self active with
    | Returned d => Returned d
    | Raised (ValueError _) =>
        Raised (ValueError
                  ("Active deployment " +:+ active +:+ " not found in configuration."))
    | Raised e => Raised e
    end.

Definition add_deployment (umask : Z) (tmp : string) (self : DeploymentsConfig)
    (deployment : Deployment) (fs : gmap string file)
  : DeploymentsConfig * gmap string file * outcome unit :=
  let existing_deployment :=
    match get_deployment self (name deployment) with
    | Returned d => Returned (Some d)
    | Raised (ValueError _) => Returned None
    | Raised e => Raised e
    end in
  match existing_deployment with
  | Raised e => (self, fs, Raised e)
  | Returned (Some _) =>
      (self, fs,
       Raised (ValueError ("Deployment " +:+ name deployment +:+ " already exists.")))
  | Returned None =>
      let self := {| active := active self;
                     deployments := deployments self ++ [deployment];
                     _path := _path self |} in
      let self := {| active := Some (name deployment);
                     deployments := deployments self;
                     _path := _path self |} in
      let '(fs, r) := write umask tmp self fs in
      (self, fs, r)
  end.

Definition switch (umask : Z) (tmp : string) (self : DeploymentsConfig)
    (n : string) (fs : gmap string file)
  : DeploymentsConfig * gmap string file * outcome unit :=
  if bool_decide (active self = Some n) then (self, fs, Returned tt)
  else
    match find_deployment (deployments self) n with
    | None =>
        (self, fs,
         Raised (ValueError ("Deployment " +:+ n +:+ " not found in deployments.")))
    | Some _ =>
        let self := {| active := Some n;
                       deployments := deployments self;
                       _path := _path self |} in
        let '(fs, r) := write umask tmp self fs in
        (self, fs, r)
    end.



(** [load_deployment(path)] of [sunbeam.provider.commands], given whether
    the file exists and what [DeploymentsConfig.load] makes of it;
    [local] is [LocalDeployment()]. *)
Definition load_deployment (local : Deployment) (exists_ : bool)
    (loaded : outcome DeploymentsConfig) : outcome Deployment :=
  if negb exists_ then Returned local
  else
    match loaded with
    | Raised e => Raised e
    | Returned deployments =>
        match active deployments with
        | None => Returned local
        | Some _ => get_active deployments
        end
    end.

End registry.

End deployments.
Export deployments.

(** ** Sample collaborators *)

Module examples.

Definition demo_deployment (mgmt data stor : space_result) : Deployment :=
  {| name := "demo"; url := "local"; type_ := "local";
     openstack_machines_model := "openstack-machines";
     infrastructure_model := "controller";
     get_space := fun n =>
       match n with MANAGEMENT => mgmt | DATA => data | STORAGE => stor end |}.

(** Management and storage share a space, data has its own. *)
Definition shared_storage : Deployment :=
  demo_deployment (Space "alpha") (Space "beta") (Space "alpha").

Definition demo_tfhelper (applied destroyed : outcome unit) : TerraformHelper :=
  {| plan := "demo-plan"; backend := "http"; backend_config := Returned [];
     update_tfvars_and_apply_tf := fun _ _ => applied;
     destroy := destroyed |}.

Definition demo_model (apps : list string) : Model :=
  {| model_name := "controller"; applications := apps; disconnect := Returned tt |}.

Definition demo_jhelper (waited : outcome unit) (apps : list string) : JujuHelper :=
  {| wait := fun _ => waited;
     get_application_names := fun _ => Returned apps;
     get_model := fun _ => Returned (demo_model apps);
     get_machines := fun _ => Returned ["0"];
     deploy := fun _ _ _ _ => Returned tt |}.

Definition empty_manifest : Manifest :=
  {| core := {| software := {| charms := [] |} |};
     get_feature := fun _ => None |}.

Definition demo_feature : InstanceRecoveryFeature :=
  {| feature_manifest := empty_manifest;
     set_application_timeout_on_enable := 1200;
     set_application_timeout_on_disable := 1200 |}.

Definition consul_step (applied waited : outcome unit) : DeployConsulClientStep :=
  {| dc_deployment := shared_storage;
     dc_feature := demo_feature;
     dc_tfhelper := demo_tfhelper applied (Returned tt);
     dc_openstack_tfhelper := demo_tfhelper (Returned tt) (Returned tt);
     dc_jhelper := demo_jhelper waited [];
     dc_app_desired_status := ["active"] |}.

Definition demo_plugin (applied destroyed : outcome unit) : ObservabilityPlugin :=
  {| plugin_deployment := shared_storage;
     plugin_manifest :=
       {| manifest_apply := fun _ _ _ _ => applied;
          get_tfhelper := fun _ => Returned (demo_tfhelper applied destroyed) |};
     get_proxy_settings := Returned [];
     convert_proxy_to_model_configs := fun d => d;
     CREDENTIAL_SUFFIX := "-creds";
     MICROK8S_CLOUD := "k8s";
     MICROK8S_DEFAULT_STORAGECLASS := "hostpath" |}.

Definition cos_step (applied destroyed waited : outcome unit) : ObservabilityStep :=
  {| os_plugin := demo_plugin applied destroyed;
     os_jhelper := demo_jhelper waited ["grafana"; "loki"] |}.

Definition certificates_step (apps : list string)
  : DeployCertificatesProviderApplicationStep :=
  {| cp_jhelper := demo_jhelper (Returned tt) apps;
     cp_manifest := empty_manifest;
     cp_model := "controller" |}.

Definition apply_fails : Step :=
  DeployConsulClient
    (consul_step (Raised (TerraformException "apply failed...")) (Returned tt)).

Definition healthy_consul : Step :=
  DeployConsulClient (consul_step (Returned tt) (Returned tt)).


(** A loop with nothing on it, on which a polling task finishes on its
    own or keeps polling. *)
Definition idle_loop (poller_finishes : bool) : Loop :=
  {| tasks := []; queues := []; finishes := fun _ => poller_finishes |}.

(** Init succeeds, the destroy of the second step fails, a third step
    follows. *)
Definition failing_plan : list BaseStep :=
  [ as_BaseStep (UpdateObservabilityModelConfig (demo_plugin (Returned tt) (Returned tt)));
    as_BaseStep (RemoveObservabilityStack
                   (cos_step (Returned tt)
                      (Raised (TerraformException "destroy failed..."))
                      (Returned tt)));
    as_BaseStep (DeployConsulClient (consul_step (Returned tt) (Returned tt))) ].

(** A dumper that keeps the active name only, and registries. *)
Definition toy_dump (active : option string) (ds : list Deployment) : string :=
  "active: " +:+ default "null" active.

Definition registry (active : option string) (ds : list Deployment)
    (path : option string) : DeploymentsConfig :=
  {| active := active; deployments := ds; _path := path |}.

Definition old_registry : gmap string file :=
  {[ "/home/u/deployments.yaml" := {| data := "active: old"; mode := octal [6;0;0]%Z |} ]}.

End examples.
Export examples.

(** ** More of sunbeam.core.deployments *)

Module registry_ops.

Section registry_ops.

(** [yaml.safe_dump] of the registry dictionary and of one deployment's
    dictionary, [Deployment.dict()] and [SHARE_PATH]: none of them is
    among the sources at hand. *)
Variable safe_dump : option string -> list Deployment -> string.
Variable dump_dict : dict -> string.
Variable dict_ : Deployment -> dict.
Variable SHARE_PATH : string.

(** The position [enumerate] reaches first with a deployment named [n]. *)
Fixpoint position (ds : list Deployment) (n : string) : option nat :=
  match ds with
  | [] => None
  | dep :: ds' =>
      if decide (name dep = n) then Some 0
      else S <$> position ds' n
  end.

Definition update_deployment (umask : Z) (tmp : string) (self : DeploymentsConfig)
    (deployment : Deployment) (fs : gmap string file)
  : DeploymentsConfig * gmap string file * outcome unit :=
  match position (deployments self) (name deployment) with
  | None =>
      (self, fs,
       Raised (ValueError
                 ("Deployment " +:+ name deployment +:+ " not found in deployments.")))
  | Some i =>
      let self := {| active := active self;
                     deployments := <[i := deployment]> (deployments self);
                     _path := _path self |} in
      let '(fs, r) := write safe_dump umask tmp self fs in
      (self, fs, r)
  end.



(** The dictionary [list_deployments] returns. *)
Record deployment_list : Type := {
  ld_active : option string;
  ld_deployments : list dict;
}.

Definition list_deployments (config : DeploymentsConfig) : deployment_list :=
  let deployments :=
    map (fun deployment =>
           filter (fun kv : string * tfval => kv.1 ∈ ["name"; "url"; "type"])
                  (dict_ deployment))
        (deployments config) in
  {| ld_active := active config; ld_deployments := deployments |}.

End registry_ops.

End registry_ops.
Export registry_ops.

(** ** More of the instance-recovery feature *)

Module feature_tfvars.

(** [set_application_names]; [topology] is what [get_database_topology]
    of the parent class returns. *)
Definition set_application_names (topology : string) (deployment : Deployment)
  : list string :=
  let apps :=
    ["masakari"; "masakari-mysql-router"]
    ++ map (fun k => "consul-" +:+ value k) (enabled_networks deployment) in
  if decide (topology = "multi") then apps ++ ["masakari-mysql"] else apps.

(** One of the three per-network blocks of [set_tfvars_on_enable]. *)
Definition server_block (self : InstanceRecoveryFeature)
    (servers_to_enable : enable_dict) (network : ConsulServerNetworks)
    (key : string) (acc : dict * dict) : dict * dict :=
  let '(tfvars, consul_config_map) := acc in
  if truthy (get network servers_to_enable) then
    let tfvars := dict_set ("enable-" +:+ key) (VBool true) tfvars in
    let _config :=
      [("expose-gossip-and-rpc-ports", VBool true);
       ("serflan-node-port", VInt CONSUL_TENANT_SERF_LAN_PORT)] in
    let _config :=
      dict_update _config (get_config_from_manifest self "consul-k8s" network) in
    (tfvars, dict_set key (VDict _config) consul_config_map)
  else
    (dict_set ("enable-" +:+ key) (VBool false) tfvars, consul_config_map).

Definition set_tfvars_on_enable (self : InstanceRecoveryFeature)
    (deployment : Deployment) : dict :=
  let tfvars : dict := [] in
  let servers_to_enable := consul_servers_to_enable deployment in
  let acc := server_block self servers_to_enable CSN_MANAGEMENT "consul-management"
               (tfvars, []) in
  let acc := server_block self servers_to_enable CSN_TENANT "consul-tenant" acc in
  let acc := server_block self servers_to_enable CSN_STORAGE "consul-storage" acc in
  let '(tfvars, consul_config_map) := acc in
  let tfvars := dict_set "consul-config-map" (VDict consul_config_map) tfvars in
  let tfvars := dict_set "enable-masakari" (VBool true) tfvars in
  tfvars.

End feature_tfvars.
Export feature_tfvars.

(** ** More of the observability plugin *)

Module plugin_more.

(** [output[key]] *)
Definition getitem (output : dict) (key : string) : outcome tfval :=
  match dict_get key output with
  | Some v => Returned v
  | None => Raised (OtherException "KeyError" key)
  end.

(** [ObservabilityPlugin.set_tfvars_on_enable]; [output] is what
    [tfhelper.output()] does for a helper. *)
Definition plugin_set_tfvars_on_enable (plugin : ObservabilityPlugin)
    (output : TerraformHelper -> outcome dict) : outcome dict :=
  match get_tfhelper (plugin_manifest plugin) (tfplan_cos plugin) with
  | Raised e => Raised e
  | Returned tfhelper_cos =>
      match output tfhelper_cos with
      | Raised e => Raised e
      | Returned output =>
          match getitem output "grafana-dashboard-offer-url" with
          | Raised e => Raised e
          | Returned dashboard =>
              match getitem output "loki-logging-offer-url" with
              | Raised e => Raised e
              | Returned logging =>
                  match getitem output "prometheus-receive-remote-write-offer-url" with
                  | Raised e => Raised e
                  | Returned remote_write =>
                      Returned
                        [("enable-observability", VBool true);
                         ("grafana-dashboard-offer-url", dashboard);
                         ("logging-offer-url", logging);
                         ("receive-remote-write-offer-url", remote_write)]
                  end
              end
          end
      end
  end.

Definition plugin_set_tfvars_on_disable (plugin : ObservabilityPlugin) : dict :=
  [("enable-observability", VBool false);
   ("grafana-dashboard-offer-url", VNone);
   ("logging-offer-url", VNone);
   ("receive-remote-write-offer-url", VNone)].




End plugin_more.
Export plugin_more.

(** ** More sample collaborators *)

Module more_examples.

(** A charm manifest whose [config] and [config-map] both set the serf
    LAN port. *)
Definition layered_charm : CharmManifest :=
  {| channel := None; revision := None;
     config := Some [("serf-lan-port", VInt 9000); ("log-level", VStr "debug")];
     model_extra :=
       Some [("config-map", [("consul-tenant", [("serf-lan-port", VInt 9311)])])] |}.

Definition layered_feature : InstanceRecoveryFeature :=
  {| feature_manifest :=
       {| core := {| software := {| charms := [] |} |};
          get_feature := fun _ =>
            Some {| software := {| charms := [("consul-client", layered_charm)] |} |} |};
     set_application_timeout_on_enable := 1200;
     set_application_timeout_on_disable := 1200 |}.

(** A certificates step whose manifest knows the charm. *)
Definition charmed_certificates_step : DeployCertificatesProviderApplicationStep :=
  {| cp_jhelper := demo_jhelper (Returned tt) ["traefik"];
     cp_manifest :=
       {| core := {| software :=
                       {| charms := [("sunbeam-ssc",
                                      {| channel := Some "2024.1/stable";
                                         revision := None; config := None;
                                         model_extra := None |})] |} |};
          get_feature := fun _ => None |};
     cp_model := "controller" |}.

(** A deployment dictionary with one key more than the listing shows. *)
Definition toy_dict (d : Deployment) : dict :=
  [("name", VStr (name d)); ("url", VStr (url d)); ("type", VStr (type_ d));
   ("juju_account", VNone)].

End more_examples.
Export more_examples.

(** * Properties *)

(** ** Vocabulary *)

(** A network is resolvable when [get_space] returns a space for it. *)
Definition resolvable (d : Deployment) (n : Networks) : Prop :=
  ∃ s, get_space d n = Space s.

(** A consul network is enabled when its entry in the dictionary is true. *)
Definition enabled (d : Deployment) (k : ConsulServerNetworks) : Prop :=
  get k (consul_servers_to_enable d) = Some true.

(** A computation is quiet when it neither records anything nor touches
    the loop: all it can do is return or raise. *)
Definition quiet {A} (m : M A) : Prop := ∀ l, ∃ o, m l = ([], l, o).


(** What the two steps that start a polling task leave behind. *)
Definition poller_left (tr : list event) (l' : Loop) (t : nat) : Prop :=
  (tasks l' !! t = Some Finished ∧ EvCancel t ∉ tr)
  ∨ (tasks l' !! t = Some CancelRequested ∧ last tr = Some (EvCancel t)).

(** Events of step [i] or later; events of step [k] or earlier. *)
Definition from_step (i : nat) (ev : plan_event) : Prop :=
  ∀ j, step_of ev = Some j → (i ≤ j)%nat.
Definition upto_step (k : nat) (ev : plan_event) : Prop :=
  ∀ j, step_of ev = Some j → (j ≤ k)%nat.

(** The section of [config-map] that belongs to a consul network. *)
Definition config_map_section (cm : CharmManifest) (network : ConsulServerNetworks)
  : dict :=
  default [] (dict_get ("consul-" +:+ value network)
                (default [] (dict_get "config-map" (default [] (model_extra cm))))).

(** What is left of a run whose provisioning call raised [e]. *)
Definition stopped_at_provisioning (e : exn) (r : list event * Loop * outcome Result)
  : Prop :=
  last (trace_of r) = Some (EvRaised e)
  ∧ (∀ w, EvWait w ∉ trace_of r)
  ∧ (∀ t apps q, EvTask t apps q ∉ trace_of r)
  ∧ (∀ k v, EvUpdateConfig k v ∉ trace_of r)
  ∧ (result_of r = Raised e ∨ result_of r = Returned (mkResult FAILED (str e))).

(** What a returned result says about the run. *)
Definition honest_result (r : list event * Loop * outcome Result) : Prop :=
  ∀ res, result_of r = Returned res →
    result_type res ≠ SKIPPED
    ∧ (result_type res = COMPLETED → message res = "" ∧ ∀ e, EvRaised e ∉ trace_of r).

(** What the observability plan is applied with. *)
Definition cos_overrides (plugin : ObservabilityPlugin) (tfvars : dict) : Prop :=
  dict_get "model" tfvars = Some (VStr OBSERVABILITY_MODEL)
  ∧ dict_get "cloud" tfvars = Some (VStr (MICROK8S_CLOUD plugin))
  ∧ dict_get "credential" tfvars
    = Some (VStr (MICROK8S_CLOUD plugin +:+ CREDENTIAL_SUFFIX plugin))
  ∧ ∃ model_config proxy,
      get_proxy_settings plugin = Returned proxy
      ∧ dict_get "config" tfvars = Some (VDict model_config)
      ∧ dict_get "workload-storage" model_config
        = Some (VStr (MICROK8S_DEFAULT_STORAGECLASS plugin))
      ∧ ∀ k, k ≠ "workload-storage" →
          dict_get k model_config
          = dict_get k (convert_proxy_to_model_configs plugin proxy).

(** ** Tactics *)

Ltac run_step :=
  unfold try_finally, try_except, after_try, wait_for, apply_tf, destroy_tf,
    apply_plan, run_sync, call, update_status, update_status_background,
    cancel_unless_done, task_done, task_cancel, Queue_new, update_config,
    mbind, mret, M_bind, M_ret, effects.bind, effects.ret, emit, lift, raise,
    on_terraform_error, on_wait_error, on_timeout,
    trace_of, result_of, loop_of; simpl.

(** Case analysis on every collaborator outcome and test left in the goal. *)
Ltac split_outcomes :=
  repeat (simpl;
          first
            [ match goal with
              | |- context [match ?x with Returned _ => _ | Raised _ => _ end] =>
                  destruct x as [?|[]] eqn:?
              end
            | match goal with
              | |- context [if ?b then _ else _] => destruct b eqn:?
              end ]).


Ltac split_calls :=
  repeat (simpl;
          match goal with
          | |- context [match ?x with Returned _ => _ | Raised _ => _ end] =>
              destruct x as [?|[]] eqn:?
          end).

Ltac no_task :=
  run_step; split_outcomes; simpl; intros Hin; set_unfold in Hin;
  destruct_or?; simplify_eq.

(** ** Consul networks *)

Section consul_networks.

Implicit Types (d : Deployment) (k : ConsulServerNetworks).

Lemma enabled_management d :
  enabled d CSN_MANAGEMENT ↔ resolvable d MANAGEMENT.
Proof.
  unfold enabled, resolvable, consul_servers_to_enable.
  destruct (get_space d MANAGEMENT), (get_space d STORAGE), (get_space d DATA);
    repeat case_bool_decide; simpl; naive_solver.
Qed.

Lemma enabled_storage d :
  enabled d CSN_STORAGE ↔
  ∃ s, get_space d STORAGE = Space s ∧ get_space d MANAGEMENT ≠ Space s.
Proof.
  unfold enabled, consul_servers_to_enable.
  destruct (get_space d MANAGEMENT), (get_space d STORAGE), (get_space d DATA);
    repeat case_bool_decide; simpl; naive_solver.
Qed.

Lemma enabled_tenant d :
  enabled d CSN_TENANT ↔
  ∃ s, get_space d DATA = Space s
       ∧ get_space d MANAGEMENT ≠ Space s ∧ get_space d STORAGE ≠ Space s.
Proof.
  unfold enabled, consul_servers_to_enable.
  destruct (get_space d MANAGEMENT), (get_space d STORAGE), (get_space d DATA);
    repeat case_bool_decide; simpl; set_unfold; naive_solver.
Qed.

End consul_networks.

(** C10: [consul_servers_to_enable] enables management exactly when the
    management space is resolvable, storage exactly when the storage
    space is resolvable and differs from the management space, tenant
    exactly when the data space is resolvable and differs from both; two
    enabled networks never share a space, and nothing is enabled when no
    space is resolvable. *)
Theorem consul_networks_enabled (d : Deployment) :
  (enabled d CSN_MANAGEMENT ↔ resolvable d MANAGEMENT)
  ∧ (enabled d CSN_STORAGE ↔
       ∃ s, get_space d STORAGE = Space s ∧ get_space d MANAGEMENT ≠ Space s)
  ∧ (enabled d CSN_TENANT ↔
       ∃ s, get_space d DATA = Space s
            ∧ get_space d MANAGEMENT ≠ Space s ∧ get_space d STORAGE ≠ Space s)
  ∧ (∀ k1 k2 s, enabled d k1 → enabled d k2 →
       get_space d (network_of k1) = Space s →
       get_space d (network_of k2) = Space s → k1 = k2)
  ∧ ((∀ n, ¬ resolvable d n) → ∀ k, ¬ enabled d k).
Proof.
  pose proof (enabled_management d) as Hm.
  pose proof (enabled_storage d) as Hs.
  pose proof (enabled_tenant d) as Ht.
  split_and!; try done.
  - intros k1 k2 s H1 H2 E1 E2.
    destruct k1, k2; try done; simpl in *;
      repeat match goal with
             | H : enabled _ _ |- _ =>
                 first [ apply Hs in H as (? & ? & ?)
                       | apply Ht in H as (? & ? & ? & ?)
                       | clear H ]
             end; congruence.
  - intros Hn k Hk. destruct k.
    + apply Hm in Hk. by apply (Hn MANAGEMENT).
    + apply Ht in Hk as (s & ? & _). apply (Hn DATA). by exists s.
    + apply Hs in Hk as (s & ? & _). apply (Hn STORAGE). by exists s.
Qed.

Lemma consul_networks_enabled_witness :
  enabled shared_storage CSN_MANAGEMENT
  ∧ enabled shared_storage CSN_TENANT
  ∧ ¬ enabled shared_storage CSN_STORAGE.
Proof.
  destruct (consul_networks_enabled shared_storage) as (Hm & Hs & Ht & _ & _).
  split_and!.
  - apply Hm. by exists "alpha".
  - apply Ht. exists "beta". by split_and!.
  - intros H. apply Hs in H as (s & E & Hne). injection E as <-. by apply Hne.
Defined.

(** ** Step bodies *)

Section quiet_computations.

Lemma quiet_lift {A} (o : outcome A) : quiet (lift o).
Proof. intros l. by exists o. Qed.

Lemma quiet_ret {A} (a : A) : quiet (mret a : M A).
Proof. intros l. by exists (Returned a). Qed.

Lemma quiet_bind {A B} (m : M A) (k : A -> M B) :
  quiet m → (∀ a, quiet (k a)) → quiet (m ≫= k).
Proof.
  intros Hm Hk l. unfold mbind, M_bind, effects.bind.
  destruct (Hm l) as [[a|e] ->].
  - destruct (Hk a l) as [o ->]. by exists o.
  - by exists (Raised e).
Qed.

Lemma quiet_network_block self enable network key port bound acc :
  quiet (network_block self enable network key port bound acc).
Proof.
  unfold network_block. destruct acc as [[tfvars ccm] cebm].
  destruct (truthy _).
  - apply quiet_bind; [apply quiet_lift|]. intros s1.
    apply quiet_bind; [apply quiet_lift|]. intros s2. apply quiet_ret.
  - apply quiet_ret.
Qed.

Lemma quiet_get_tfvars self : quiet (_get_tfvars self).
Proof.
  unfold _get_tfvars.
  apply quiet_bind; [apply quiet_lift|]. intros cfg.
  repeat (apply quiet_bind; [apply quiet_network_block|]; intros [[? ?] ?]).
  apply quiet_ret.
Qed.

Lemma quiet_cos_tfvars plugin : quiet (cos_tfvars plugin).
Proof.
  unfold cos_tfvars. apply quiet_bind; [apply quiet_lift|]. intros ?. apply quiet_ret.
Qed.

Lemma quiet_bind_run {A B} (m : M A) (k : A -> M B) l :
  quiet m →
  (∃ e, (m ≫= k) l = ([], l, Raised e)) ∨ (∃ a, (m ≫= k) l = k a l).
Proof.
  intros Hm. unfold mbind, M_bind, effects.bind.
  destruct (Hm l) as [[a|e] ->].
  - right. exists a. by destruct (k a l) as [[tr l'] r].
  - left. by exists e.
Qed.

(** *** The polling task on the loop *)

(** The state of a task spawned last, after the loop ran twice (once
    for [update_status_background], once for the wait). *)
Lemma lookup_spawned (f : nat -> bool) (ts : list TaskState) :
  imap (step_task f) (imap (step_task f) (ts ++ [Pending])) !! length ts
  = Some (if f (length ts) then Finished else Pending).
Proof.
  rewrite !list_lookup_imap, lookup_app_r, Nat.sub_diag by lia. simpl.
  destruct (f (length ts)) eqn:E; simpl; by rewrite ?E.
Qed.

Lemma lookup_spawned_cancelled (f : nat -> bool) (ts : list TaskState) :
  f (length ts) = false →
  alter cancel (length ts)
    (imap (step_task f) (imap (step_task f) (ts ++ [Pending]))) !! length ts
  = Some CancelRequested.
Proof.
  intros Hf. by rewrite list_lookup_alter_eq, lookup_spawned, Hf.
Qed.

End quiet_computations.

Ltac close_poller l :=
  split_calls; simpl; rewrite ?lookup_spawned;
  try match goal with
      | |- context [finishes l ?n] => destruct (finishes l n) eqn:?
      end; simpl;
  intros Hin; set_unfold in Hin; destruct_or?; simplify_eq;
  first
    [ solve [ left; simpl; split;
              [ match goal with
                | H : finishes _ _ = true |- _ => by rewrite lookup_spawned, H
                end
              | set_unfold; naive_solver ] ]
    | solve [ right; simpl; split;
              [ by apply lookup_spawned_cancelled | done ] ] ].

Ltac enter_consul_step self l :=
  let o := fresh "o" in
  let Ho := fresh "Ho" in
  destruct (quiet_get_tfvars self l) as [o Ho];
  unfold DeployConsulClientStep_run, mbind, M_bind, effects.bind;
  rewrite Ho; destruct o as [?|?]; clear Ho.

Section step_bodies.








Lemma provisioning_DeployCertificates self status l :
  provisioning_raised
    (trace_of (DeployCertificatesProviderApplicationStep_run self status l)) = None.
Proof.
  unfold DeployCertificatesProviderApplicationStep_run, connect, close.
  run_step. split_outcomes; simpl; congruence.
Qed.









Lemma poller_DeployConsulClient self status l t apps q :
  EvTask t apps q ∈ trace_of (DeployConsulClientStep_run self status l) →
  poller_left (trace_of (DeployConsulClientStep_run self status l))
              (loop_of (DeployConsulClientStep_run self status l)) t.
Proof.
  enter_consul_step self l; [|by intros ?%elem_of_nil].
  run_step. close_poller l.
Qed.

Lemma poller_DeployObservabilityStack self status l t apps q :
  EvTask t apps q ∈ trace_of (DeployObservabilityStackStep_run self status l) →
  poller_left (trace_of (DeployObservabilityStackStep_run self status l))
              (loop_of (DeployObservabilityStackStep_run self status l)) t.
Proof.
  unfold DeployObservabilityStackStep_run, cos_tfvars. run_step. close_poller l.
Qed.

(** The other steps start no task. *)
Lemma no_poller s status l t apps q :
  match s with
  | DeployConsulClient _ | DeployObservabilityStack _ => False
  | _ => True
  end →
  EvTask t apps q ∉ trace_of (run_of s status l).
Proof.
  destruct s; intros []; simpl.
  - unfold RemoveConsulClientStep_run. no_task.
  - unfold UpdateObservabilityModelConfigStep_run, cos_tfvars. no_task.
  - unfold DeployGrafanaAgentStep_run. no_task.
  - unfold RemoveObservabilityStackStep_run. no_task.
  - unfold RemoveGrafanaAgentStep_run. no_task.
  - unfold DeployCertificatesProviderApplicationStep_run, connect, close. no_task.
Qed.

(** C8: the queue of [DeployConsulClientStep.run]. *)
Lemma queue_DeployConsulClient self status l q n :
  EvQueue q n ∈ trace_of (DeployConsulClientStep_run self status l) →
  let apps := set_consul_client_application_names (dc_deployment self) in
  let tr := trace_of (DeployConsulClientStep_run self status l) in
  let l' := loop_of (DeployConsulClientStep_run self status l) in
  n = Z.of_nat (length apps)
  ∧ queues l' !! q = Some (new_queue (Z.of_nat (length apps)))
  ∧ (∃ t, EvTask t apps (Some q) ∈ tr)
  ∧ EvWait (dc_wait_call self apps q) ∈ tr.
Proof.
  enter_consul_step self l; [|by intros ?%elem_of_nil].
  run_step. split_outcomes; simpl; intros Hin; set_unfold in Hin;
    destruct_or?; simplify_eq;
    (split; [done|]);
    (split; [by rewrite lookup_app_r, Nat.sub_diag by lia|]);
    (split; [exists (length (tasks l))|]; set_unfold; naive_solver).
Qed.

Lemma queue_created self status l tfvars :
  result_of (_get_tfvars self l) = Returned tfvars →
  update_tfvars_and_apply_tf (dc_tfhelper self) CONSUL_CLIENT_CONFIG_KEY tfvars
    = Returned tt →
  EvQueue (length (queues l))
    (Z.of_nat (length (set_consul_client_application_names (dc_deployment self))))
    ∈ trace_of (DeployConsulClientStep_run self status l).
Proof.
  destruct (quiet_get_tfvars self l) as [o Ho].
  unfold DeployConsulClientStep_run, mbind, M_bind, effects.bind.
  rewrite Ho. unfold result_of. simpl. intros -> Ha. run_step. rewrite Ha.
  split_outcomes; simpl; set_solver.
Qed.

End step_bodies.






(** C4: once the polling task has been started, on every way out of
    [run] (success, wait failure, timeout or any other exception of the
    wait) the task has either finished on its own, and is not cancelled,
    or its cancellation is requested as the last thing [run] does.  The
    request is not awaited: the task is then still in the state
    [CancelRequested] when [run] hands back control. *)
Theorem poller_cancellation_requested (s : Step) status l t apps q :
  EvTask t apps q ∈ trace_of (run_of s status l) →
  (tasks (loop_of (run_of s status l)) !! t = Some Finished
   ∧ EvCancel t ∉ trace_of (run_of s status l))
  ∨ (tasks (loop_of (run_of s status l)) !! t = Some CancelRequested
     ∧ last (trace_of (run_of s status l)) = Some (EvCancel t)).
Proof.
  destruct s;
    try (intros Hin; by eapply no_poller in Hin).
  - apply poller_DeployConsulClient.
  - apply poller_DeployObservabilityStack.
Qed.

Lemma poller_cancellation_requested_witness :
  EvTask 0 ["consul-client-management"; "consul-client-tenant"] (Some 0)
    ∈ trace_of (run_of healthy_consul (Some LiveStatus) (idle_loop false))
  ∧ ((tasks (loop_of (run_of healthy_consul (Some LiveStatus) (idle_loop false))) !! 0
      = Some Finished
      ∧ EvCancel 0 ∉ trace_of (run_of healthy_consul (Some LiveStatus) (idle_loop false)))
     ∨ (tasks (loop_of (run_of healthy_consul (Some LiveStatus) (idle_loop false))) !! 0
        = Some CancelRequested
        ∧ last (trace_of (run_of healthy_consul (Some LiveStatus) (idle_loop false)))
          = Some (EvCancel 0))).
Proof.
  assert (EvTask 0 ["consul-client-management"; "consul-client-tenant"] (Some 0)
          ∈ trace_of (run_of healthy_consul (Some LiveStatus) (idle_loop false))) as Hin.
  { vm_compute. do 3 apply list_elem_of_further. apply list_elem_of_here. }
  split; [exact Hin|].
  exact (poller_cancellation_requested _ _ _ _ _ _ Hin).
Defined.

(** The step has returned COMPLETED and its polling task is not done. *)
Lemma poller_outlives_step :
  result_of (run_of healthy_consul (Some LiveStatus) (idle_loop false))
    = Returned (Result_ COMPLETED)
  ∧ EvTask 0 ["consul-client-management"; "consul-client-tenant"] (Some 0)
      ∈ trace_of (run_of healthy_consul (Some LiveStatus) (idle_loop false))
  ∧ tasks (loop_of (run_of healthy_consul (Some LiveStatus) (idle_loop false))) !! 0
    = Some CancelRequested
  ∧ done CancelRequested = false.
Proof.
  split_and!; try reflexivity.
  vm_compute. do 3 apply list_elem_of_further. apply list_elem_of_here.
Qed.

(** C8: in [DeployConsulClientStep.run] the queue is created with
    [maxsize = len(apps)], the same queue is handed to the polling task
    and to the wait, and for a non-empty list of applications it is
    bounded with exactly that capacity.  The queue is created whenever
    the Terraform variables are computed and the apply succeeds. *)
Theorem consul_queue_capacity self status l :
  let apps := set_consul_client_application_names (dc_deployment self) in
  let tr := trace_of (DeployConsulClientStep_run self status l) in
  let l' := loop_of (DeployConsulClientStep_run self status l) in
  (∀ q n, EvQueue q n ∈ tr →
     n = Z.of_nat (length apps)
     ∧ queues l' !! q = Some (new_queue (Z.of_nat (length apps)))
     ∧ (∃ t, EvTask t apps (Some q) ∈ tr)
     ∧ EvWait (dc_wait_call self apps q) ∈ tr
     ∧ (apps ≠ [] → capacity (new_queue n) = Some (Z.of_nat (length apps))))
  ∧ (∀ tfvars,
       result_of (_get_tfvars self l) = Returned tfvars →
       update_tfvars_and_apply_tf (dc_tfhelper self) CONSUL_CLIENT_CONFIG_KEY tfvars
         = Returned tt →
       ∃ q, EvQueue q (Z.of_nat (length apps)) ∈ tr).
Proof.
  intros apps tr l'. split.
  - intros q n Hin.
    destruct (queue_DeployConsulClient self status l q n Hin) as (-> & Hq & Ht & Hw).
    split_and!; try done.
    intros Hne. unfold capacity, apps in *. simpl.
    by destruct (set_consul_client_application_names _).
  - intros tfvars H1 H2. eexists. by eapply queue_created.
Qed.

Lemma consul_queue_capacity_witness :
  EvQueue 0 2 ∈ trace_of (run_of healthy_consul None (idle_loop false))
  ∧ capacity (new_queue 2) = Some 2%Z
  ∧ queues (loop_of (run_of healthy_consul None (idle_loop false))) !! 0
    = Some (new_queue 2).
Proof.
  assert (EvQueue 0 2 ∈ trace_of (run_of healthy_consul None (idle_loop false))) as Hin.
  { vm_compute. do 2 apply list_elem_of_further. apply list_elem_of_here. }
  destruct (proj1 (consul_queue_capacity
                     (consul_step (Returned tt) (Returned tt)) None (idle_loop false))
              0 2%Z Hin) as (_ & Hq & _ & _ & Hc).
  split_and!; [exact Hin| |exact Hq].
  apply Hc. discriminate.
Defined.

(** ** The skip check of the certificates step *)

Section skip_check.

Lemma is_skip_cases self status l model :
  get_model (cp_jhelper self) (cp_model self) = Returned model →
  disconnect model = Returned tt →
  result_of (DeployCertificatesProviderApplicationStep_is_skip self status l)
  = Returned (Result_ (if bool_decide (APPLICATION ∈ applications model)
                       then SKIPPED else COMPLETED)).
Proof.
  intros Hm Hd.
  unfold DeployCertificatesProviderApplicationStep_is_skip, connect, close,
    get_application, on_application_not_found, cp_app.
  run_step. rewrite Hm. simpl. rewrite Hd.
  by destruct (bool_decide _).
Qed.

End skip_check.

(** C5: [DeployCertificatesProviderApplicationStep.is_skip] returns
    COMPLETED exactly when the tls-operator application is absent from
    the model and SKIPPED exactly when it is present; it does return
    whenever the model can be reached and released. *)
Theorem is_skip_polarity self status l :
  (∀ r, result_of (DeployCertificatesProviderApplicationStep_is_skip self status l)
        = Returned r →
     ∃ model, get_model (cp_jhelper self) (cp_model self) = Returned model
       ∧ (result_type r = COMPLETED ↔ APPLICATION ∉ applications model)
       ∧ (result_type r = SKIPPED ↔ APPLICATION ∈ applications model))
  ∧ (∀ model, get_model (cp_jhelper self) (cp_model self) = Returned model →
       disconnect model = Returned tt →
       ∃ r, result_of (DeployCertificatesProviderApplicationStep_is_skip self status l)
            = Returned r).
Proof.
  split.
  - intros r.
    unfold DeployCertificatesProviderApplicationStep_is_skip, connect, close,
      get_application, on_application_not_found, cp_app.
    run_step.
    destruct (get_model _ _) as [model|e]; simpl; [|done].
    destruct (disconnect model) as [[]|e]; simpl;
      case_bool_decide; simpl; intros [= <-]; exists model; simpl;
      naive_solver.
  - intros model Hm Hd. eexists. by eapply is_skip_cases.
Qed.

Lemma is_skip_polarity_witness :
  result_of (DeployCertificatesProviderApplicationStep_is_skip
               (certificates_step ["tls-operator"]) None (idle_loop false))
    = Returned (Result_ SKIPPED)
  ∧ result_of (DeployCertificatesProviderApplicationStep_is_skip
                 (certificates_step ["traefik"]) None (idle_loop false))
    = Returned (Result_ COMPLETED)
  ∧ ∃ r, result_of (DeployCertificatesProviderApplicationStep_is_skip
                      (certificates_step []) None (idle_loop false)) = Returned r.
Proof.
  split_and!; [reflexivity|reflexivity|].
  exact (proj2 (is_skip_polarity (certificates_step []) None (idle_loop false))
           (demo_model []) eq_refl eq_refl).
Defined.

(** ** The plan runner *)

Lemma invoke_Forall i m l : Forall (fun ev => step_of ev = Some i) (invoke i m l).1.1.
Proof.
  unfold invoke. destruct (m l) as [[tr l'] r]. simpl.
  apply Forall_fmap, Forall_true. done.
Qed.

Lemma fail_plan_Forall verbose msg : Forall (fun ev => step_of ev = None) (fail_plan verbose msg).
Proof. unfold fail_plan. destruct verbose; repeat constructor. Qed.

Lemma from_step_here i ev : step_of ev = Some i → from_step i ev.
Proof. intros H j. rewrite H. by intros [= ->]. Qed.

Lemma from_step_none i ev : step_of ev = None → from_step i ev.
Proof. intros H j. by rewrite H. Qed.

Lemma from_step_S i ev : from_step (S i) ev → from_step i ev.
Proof. intros H j Hj. specialize (H j Hj). lia. Qed.

Ltac forall_pieces :=
  repeat first [rewrite Forall_singleton | rewrite Forall_cons | rewrite Forall_app];
  split_and?.

Ltac piece :=
  first
    [ by apply from_step_here
    | by (eapply Forall_impl; [eassumption|apply from_step_here])
    | by (eapply Forall_impl; [eassumption|apply from_step_S])
    | by (eapply Forall_impl; [apply fail_plan_Forall|apply from_step_none]) ].

Lemma run_plan_from_lower steps : ∀ i verbose l,
  Forall (from_step i) (run_plan_from i steps verbose l).1.1.
Proof.
  induction steps as [|step rest IH]; intros i verbose l; simpl; [constructor|].
  pose proof (invoke_Forall i (is_skip step (Some LiveStatus)) l) as H1.
  destruct (invoke i (is_skip step (Some LiveStatus)) l) as [[tr1 l1] [sr|e]];
    simpl in H1; [|simpl; forall_pieces; piece].
  destruct (decide _).
  - pose proof (IH (S i) verbose l1) as IH1.
    destruct (run_plan_from (S i) rest verbose l1) as [[tr l'] r]. simpl in *.
    forall_pieces; piece.
  - pose proof (invoke_Forall i (run step (Some LiveStatus)) l1) as H2.
    destruct (invoke i (run step (Some LiveStatus)) l1) as [[tr2 l2] [rr|e]];
      simpl in H2; [|simpl; forall_pieces; piece].
    destruct (decide _); [simpl; forall_pieces; piece|].
    pose proof (IH (S i) verbose l2) as IH2.
    destruct (run_plan_from (S i) rest verbose l2) as [[tr l'] r]. simpl in *.
    forall_pieces; piece.
Qed.

Lemma upto_step_here k ev : step_of ev = Some k → upto_step k ev.
Proof. intros H j. rewrite H. by intros [= ->]. Qed.

Lemma upto_step_none k ev : step_of ev = None → upto_step k ev.
Proof. intros H j. by rewrite H. Qed.

Lemma upto_step_le i k ev : (i ≤ k)%nat → step_of ev = Some i → upto_step k ev.
Proof. intros Hik H j. rewrite H. intros [= ->]. done. Qed.

Lemma not_in_invoke i m l k r : RunReturned k r ∉ (invoke i m l).1.1.
Proof.
  unfold invoke. destruct (m l) as [[tr l'] r']. simpl.
  by intros (e & ? & _)%list_elem_of_fmap.
Qed.

Lemma not_in_fail_plan verbose msg k r : RunReturned k r ∉ fail_plan verbose msg.
Proof. unfold fail_plan. destruct verbose; set_solver. Qed.

Lemma Display_in_fail_plan verbose msg : Display msg ∈ fail_plan verbose msg.
Proof. unfold fail_plan. set_solver. Qed.

Ltac upto i :=
  first
    [ by apply upto_step_here
    | by (eapply upto_step_le; [eassumption|done])
    | by (eapply Forall_impl; [eassumption|intros ? ?; by eapply upto_step_le])
    | by (eapply Forall_impl; [apply fail_plan_Forall|apply upto_step_none])
    | eassumption ].

Lemma run_plan_from_failed steps : ∀ i verbose l k msg,
  RunReturned k (Returned (mkResult FAILED msg)) ∈ (run_plan_from i steps verbose l).1.1 →
  (run_plan_from i steps verbose l).2 = PlanFailed msg
  ∧ Display msg ∈ (run_plan_from i steps verbose l).1.1
  ∧ Forall (upto_step k) (run_plan_from i steps verbose l).1.1.
Proof.
  induction steps as [|step rest IH]; intros i verbose l k msg; simpl.
  { by intros ?%elem_of_nil. }
  pose proof (invoke_Forall i (is_skip step (Some LiveStatus)) l) as H1.
  pose proof (not_in_invoke i (is_skip step (Some LiveStatus)) l k
                (Returned (mkResult FAILED msg))) as N1.
  destruct (invoke i (is_skip step (Some LiveStatus)) l) as [[tr1 l1] [sr|e]];
    simpl in H1, N1.
  2:{ simpl. pose proof (not_in_fail_plan verbose (str e) k (Returned (mkResult FAILED msg))).
      set_solver. }
  destruct (decide _).
  - pose proof (IH (S i) verbose l1 k msg) as IH1.
    pose proof (run_plan_from_lower rest (S i) verbose l1) as L1.
    destruct (run_plan_from (S i) rest verbose l1) as [[tr l'] r]. simpl in *.
    intros Hin. assert (Hin' : RunReturned k (Returned (mkResult FAILED msg)) ∈ tr) by set_solver.
    destruct (IH1 Hin') as (-> & HD & HF). 
    assert (Hk : (i ≤ k)%nat).
    { rewrite Forall_forall in L1. specialize (L1 _ Hin' k eq_refl). lia. }
    split; [done|]. split; [set_solver|].
    forall_pieces; upto i.
  - pose proof (invoke_Forall i (run step (Some LiveStatus)) l1) as H2.
    pose proof (not_in_invoke i (run step (Some LiveStatus)) l1 k
                  (Returned (mkResult FAILED msg))) as N2.
    destruct (invoke i (run step (Some LiveStatus)) l1) as [[tr2 l2] [rr|e]];
      simpl in H2, N2.
    2:{ simpl. set_solver. }
    destruct (decide _) as [Hf|Hf].
    + simpl. pose proof (not_in_fail_plan verbose (message rr) k (Returned (mkResult FAILED msg))).
      pose proof (Display_in_fail_plan verbose (message rr)).
      intros Hin.
      assert (k = i ∧ rr = mkResult FAILED msg) as [-> ->] by set_solver.
      simpl in *. split; [done|]. split; [set_solver|].
      forall_pieces; upto i.
    + pose proof (IH (S i) verbose l2 k msg) as IH2.
      pose proof (run_plan_from_lower rest (S i) verbose l2) as L2.
      destruct (run_plan_from (S i) rest verbose l2) as [[tr l'] r]. simpl in *.
      intros Hin.
      assert (Hin' : RunReturned k (Returned (mkResult FAILED msg)) ∈ tr).
      { set_unfold. naive_solver. }
      destruct (IH2 Hin') as (-> & HD & HF).
      assert (Hk : (i ≤ k)%nat).
      { rewrite Forall_forall in L2. specialize (L2 _ Hin' k eq_refl). lia. }
      split; [done|]. split; [set_solver|].
      forall_pieces; upto i.
Qed.

(** C2: if the [run] of the step at position [k] returns a FAILED result,
    [run_plan] reports failure with the message of that result, displays
    it, and no step after [k] is touched: neither its [is_skip] nor its
    [run] is called. *)
Theorem run_plan_stops_at_failure steps verbose l k r :
  RunReturned k (Returned r) ∈ (run_plan steps verbose l).1.1 →
  result_type r = FAILED →
  (run_plan steps verbose l).2 = PlanFailed (message r)
  ∧ Display (message r) ∈ (run_plan steps verbose l).1.1
  ∧ (∀ ev j, ev ∈ (run_plan steps verbose l).1.1 → step_of ev = Some j → (j ≤ k)%nat)
  ∧ (∀ j, (k < j)%nat →
       IsSkipCalled j ∉ (run_plan steps verbose l).1.1
       ∧ RunCalled j ∉ (run_plan steps verbose l).1.1).
Proof.
  intros Hin Hf. destruct r as [rt msg]. simpl in Hf. subst rt.
  destruct (run_plan_from_failed steps 0 verbose l k msg Hin) as (Hr & Hd & Hall).
  rewrite Forall_forall in Hall.
  split_and!; try done.
  - intros ev j Hev Hj. by apply (Hall ev Hev j).
  - intros j Hj. split; intros Hev; specialize (Hall _ Hev j eq_refl); lia.
Qed.

Lemma run_plan_stops_at_failure_witness :
  RunReturned 1 (Returned (mkResult FAILED "destroy failed..."))
    ∈ (run_plan failing_plan false (idle_loop false)).1.1
  ∧ (run_plan failing_plan false (idle_loop false)).2 = PlanFailed "destroy failed..."
  ∧ IsSkipCalled 2 ∉ (run_plan failing_plan false (idle_loop false)).1.1.
Proof.
  assert (RunReturned 1 (Returned (mkResult FAILED "destroy failed..."))
          ∈ (run_plan failing_plan false (idle_loop false)).1.1) as Hin.
  { vm_compute. do 10 apply list_elem_of_further. apply list_elem_of_here. }
  destruct (run_plan_stops_at_failure failing_plan false (idle_loop false) 1
              (mkResult FAILED "destroy failed...") Hin eq_refl)
    as (Hr & _ & _ & Hn).
  split_and!; [exact Hin|exact Hr|]. apply (Hn 2). lia.
Defined.

(** ** The deployment registry *)

Section registry_facts.

Variable safe_dump : option string -> list Deployment -> string.
Variable SHARE_PATH : string.

Implicit Types (c : DeploymentsConfig) (fs : gmap string file).

Lemma find_deployment_None ds n :
  find_deployment ds n = None ↔ ∀ d, d ∈ ds → name d ≠ n.
Proof.
  induction ds as [|d ds IH]; simpl.
  - split; [by intros _ d ?%elem_of_nil|done].
  - destruct (decide (name d = n)) as [Hd|Hd].
    + split; [done|]. intros H. destruct (H d); [by left|done].
    + rewrite IH. set_solver.
Qed.

Lemma find_deployment_Some ds n d :
  find_deployment ds n = Some d → d ∈ ds ∧ name d = n.
Proof.
  induction ds as [|d' ds IH]; simpl; [done|].
  destruct (decide (name d' = n)).
  - intros [= ->]. split; [by left|done].
  - intros [? ?]%IH. split; [by right|done].
Qed.

Lemma find_deployment_is_Some ds n :
  (∃ e, e ∈ ds ∧ name e = n) → is_Some (find_deployment ds n).
Proof.
  intros (e & He & Hn). destruct (find_deployment ds n) eqn:E; [done|].
  rewrite find_deployment_None in E. by destruct (E e He).
Qed.

Lemma exec_write umask tmp p s fs :
  tmp ≠ p →
  exec umask
    (NamedTemporaryFile tmp ++ dump_and_flush tmp s ++ shutil_copy tmp p
     ++ [Unlink tmp] ++ [Chmod p (octal [6;0;0]%Z)]) fs
  = <[p := {| data := s; mode := octal [6;0;0]%Z |}]> (delete tmp fs).
Proof.
  intros Hne. unfold exec. simpl.
  apply map_eq. intros k.
  destruct (fs !! tmp) eqn:Et, (fs !! p) eqn:Ep;
    destruct (decide (k = p)) as [Hkp|Hkp], (decide (k = tmp)) as [Hkt|Hkt]; subst;
    simplify_map_eq; try done.
Qed.


Lemma write_ok umask tmp c fs p :
  _path c = Some p → tmp ≠ p →
  write safe_dump umask tmp c fs
  = (<[p := {| data := safe_dump (active c) (deployments c);
               mode := octal [6;0;0]%Z |}]> (delete tmp fs),
     Returned tt).
Proof.
  intros Hp Hne. unfold write, write_ops, path. rewrite Hp.
  by rewrite exec_write.
Qed.






Lemma get_active_found c d :
  get_active c = Returned d → active c = Some (name d) ∧ d ∈ deployments c.
Proof.
  unfold get_active, get_deployment.
  destruct (active c) as [a|] eqn:Ea; simpl; [|done].
  case_bool_decide; [done|].
  destruct (find_deployment (deployments c) a) as [d'|] eqn:E; [|done].
  intros [= ->]. apply find_deployment_Some in E as [? <-]. done.
Qed.

Lemma get_active_missing c n :
  active c = Some n → n ≠ "" → (∀ d, d ∈ deployments c → name d ≠ n) →
  get_active c
  = Raised (ValueError ("Active deployment " +:+ n +:+ " not found in configuration.")).
Proof.
  intros Ha Hn Hd. unfold get_active, get_deployment. rewrite Ha. simpl.
  rewrite bool_decide_eq_false_2 by done.
  apply find_deployment_None in Hd. by rewrite Hd.
Qed.

Lemma get_active_unset c :
  active c = None ∨ active c = Some "" →
  get_active c = Raised (ValueError "No active deployment found.").
Proof. unfold get_active. by intros [-> | ->]. Qed.

Lemma add_deployment_exists umask tmp c d fs :
  (∃ e, e ∈ deployments c ∧ name e = name d) →
  add_deployment safe_dump umask tmp c d fs
  = (c, fs, Raised (ValueError ("Deployment " +:+ name d +:+ " already exists."))).
Proof.
  intros [x Hx]%find_deployment_is_Some.
  unfold add_deployment, get_deployment. by rewrite Hx.
Qed.

Lemma add_deployment_new umask tmp c d fs p :
  (∀ e, e ∈ deployments c → name e ≠ name d) → _path c = Some p → tmp ≠ p →
  add_deployment safe_dump umask tmp c d fs
  = ({| active := Some (name d); deployments := deployments c ++ [d];
        _path := Some p |},
     <[p := {| data := safe_dump (Some (name d)) (deployments c ++ [d]);
               mode := octal [6;0;0]%Z |}]> (delete tmp fs),
     Returned tt).
Proof.
  intros Hd%find_deployment_None Hp Hne.
  unfold add_deployment, get_deployment. rewrite Hd. simpl.
  rewrite (write_ok _ _ _ _ p) by done. simpl. by rewrite Hp.
Qed.




End registry_facts.

(** C6: when [active] is a non-empty name that no deployment bears,
    [get_active] raises the "Active deployment ... not found" error; when
    [active] is unset or the empty text it raises the "No active
    deployment found." error; whatever it returns is the deployment
    named by [active], never another one; and [load_deployment] passes
    the not-found error on instead of handing out the local deployment. *)
Theorem get_active_never_falls_back (c : DeploymentsConfig) :
  (∀ n, active c = Some n → n ≠ "" →
     (∀ d, d ∈ deployments c → name d ≠ n) →
     get_active c
     = Raised (ValueError ("Active deployment " +:+ n +:+ " not found in configuration.")))
  ∧ (active c = None ∨ active c = Some "" →
       get_active c = Raised (ValueError "No active deployment found."))
  ∧ (∀ d, get_active c = Returned d →
       active c = Some (name d) ∧ d ∈ deployments c)
  ∧ (∀ local n, active c = Some n → n ≠ "" →
       (∀ d, d ∈ deployments c → name d ≠ n) →
       load_deployment local true (Returned c)
       = Raised (ValueError ("Active deployment " +:+ n +:+ " not found in configuration."))).
Proof.
  split_and!.
  - apply get_active_missing.
  - apply get_active_unset.
  - apply get_active_found.
  - intros local n Ha Hn Hd. unfold load_deployment. simpl. rewrite Ha.
    by apply get_active_missing.
Qed.

Lemma get_active_never_falls_back_witness :
  get_active (registry (Some "foo") [shared_storage] None)
  = Raised (ValueError "Active deployment foo not found in configuration.").
Proof.
  apply (proj1 (get_active_never_falls_back (registry (Some "foo") [shared_storage] None))
           "foo" eq_refl).
  - discriminate.
  - intros d Hd. apply list_elem_of_singleton in Hd as ->. discriminate.
Defined.

(** An empty active name that no deployment bears is reported as
    "no active deployment", not as "not found". *)
Lemma get_active_empty_name :
  (∀ d, d ∈ deployments (registry (Some "") [shared_storage] None) → name d ≠ "")
  ∧ get_active (registry (Some "") [shared_storage] None)
    = Raised (ValueError "No active deployment found.")
  ∧ get_active (registry (Some "") [shared_storage] None)
    ≠ Raised (ValueError ("Active deployment " +:+ "" +:+ " not found in configuration.")).
Proof.
  split_and!; [|reflexivity|discriminate].
  intros d Hd. apply list_elem_of_singleton in Hd as ->. discriminate.
Qed.







(** * Further properties *)

(** ** The deployment registry *)

Section registry_more_facts.

Implicit Types (c : DeploymentsConfig) (fs : gmap string file) (d e : Deployment).
Implicit Types (ds : list Deployment) (i : nat) (n : string).

Lemma find_deployment_app_fresh ds d n :
  find_deployment ds n = None →
  find_deployment (ds ++ [d]) n = if decide (name d = n) then Some d else None.
Proof.
  induction ds as [|e ds IH]; simpl; [done|].
  destruct (decide (name e = n)); [done|]. apply IH.
Qed.

Lemma find_deployment_app_old ds d n e :
  find_deployment ds n = Some e → find_deployment (ds ++ [d]) n = Some e.
Proof.
  induction ds as [|x ds IH]; simpl; [done|].
  destruct (decide (name x = n)); [done|]. apply IH.
Qed.

Lemma position_Some ds n i :
  position ds n = Some i →
  ∃ e, ds !! i = Some e ∧ name e = n ∧ ∀ j x, (j < i)%nat → ds !! j = Some x → name x ≠ n.
Proof.
  revert i. induction ds as [|x ds IH]; intros i; simpl; [done|].
  destruct (decide (name x = n)) as [Hx|Hx].
  - intros [= <-]. exists x. split_and!; [done|done|]. intros j y Hj. lia.
  - destruct (position ds n) as [i'|] eqn:E; simpl; [|done].
    intros [= <-]. destruct (IH i' eq_refl) as (e & He & Hn & Hlt).
    exists e. split_and!; [done|done|].
    intros [|j] y Hj; simpl; [by intros [= <-]|].
    intros Hy. apply (Hlt j y); [lia|done].
Qed.


Lemma insert_same_name ds i e d :
  ds !! i = Some e → name e = name d →
  name <$> (<[i := d]> ds) = name <$> ds.
Proof.
  intros He Hn. rewrite list_fmap_insert. rewrite <- Hn.
  apply list_insert_id. by rewrite list_lookup_fmap, He.
Qed.


Lemma find_deployment_names ds ds' n :
  name <$> ds = name <$> ds' →
  is_Some (find_deployment ds n) → is_Some (find_deployment ds' n).
Proof.
  revert ds'. induction ds as [|x ds IH]; intros [|y ds']; simpl; try done.
  intros [= Hxy Hrest]. rewrite Hxy.
  destruct (decide (name y = n)); [done|]. by apply IH.
Qed.


Lemma find_deployment_first ds n d :
  find_deployment ds n = Some d →
  ∃ i, ds !! i = Some d ∧ name d = n
       ∧ ∀ j x, (j < i)%nat → ds !! j = Some x → name x ≠ n.
Proof.
  induction ds as [|x ds IH]; simpl; [done|].
  destruct (decide (name x = n)) as [Hx|Hx].
  - intros [= <-]. exists 0. split_and!; [done|done|]. intros j y Hj. lia.
  - intros (i & Hi & Hn & Hlt)%IH. exists (S i). split_and!; [done|done|].
    intros [|j] y Hj; simpl; [by intros [= <-]|].
    intros Hy. apply (Hlt j y); [lia|done].
Qed.

Lemma NoDup_names_snoc ds d :
  NoDup (name <$> ds) → find_deployment ds (name d) = None →
  NoDup (name <$> (ds ++ [d])).
Proof.
  intros Hnd Hf. rewrite fmap_app. apply NoDup_app. split_and!; [done| |].
  - intros x Hx Hx'. simpl in Hx'. apply list_elem_of_singleton in Hx' as ->.
    apply list_elem_of_fmap in Hx as (e & He & Hin).
    rewrite find_deployment_None in Hf. by apply (Hf e Hin).
  - simpl. apply NoDup_singleton.
Qed.


End registry_more_facts.

(** X1: get_deployment returns the first deployment of the list whose name
    is the one asked for (no earlier entry has that name), and it raises
    ValueError 'Deployment name not found in deployments.' exactly when no
    deployment has that name. *)
Theorem get_deployment_first_match (c : DeploymentsConfig) (n : string) :
  (∀ d, get_deployment c n = Returned d →
     ∃ i, deployments c !! i = Some d ∧ name d = n
          ∧ ∀ j x, (j < i)%nat → deployments c !! j = Some x → name x ≠ n)
  ∧ ((∀ d, d ∈ deployments c → name d ≠ n) ↔
     get_deployment c n
     = Raised (ValueError ("Deployment " +:+ n +:+ " not found in deployments."))).
Proof.
  unfold get_deployment. split.
  - intros d. destruct (find_deployment _ _) eqn:E; [|done].
    intros [= <-]. by apply find_deployment_first.
  - rewrite <- find_deployment_None. by destruct (find_deployment _ _).
Qed.

Lemma get_deployment_first_match_witness :
  get_deployment (registry None [shared_storage] None) "ghost"
  = Raised (ValueError "Deployment ghost not found in deployments.").
Proof.
  apply (proj2 (get_deployment_first_match (registry None [shared_storage] None) "ghost")).
  intros d Hd. apply list_elem_of_singleton in Hd as ->. discriminate.
Defined.

(** X2: After add_deployment of a deployment with a fresh name (path set),
    get_deployment finds it under its name, get_active returns it when its
    name is not empty, every lookup that succeeded before still gives the
    same deployment, and adding it a second time raises 'Deployment name
    already exists.' and changes nothing. *)
Theorem add_deployment_then_lookup
    (safe_dump : option string → list Deployment → string)
    (umask : Z) (tmp : string) (c : DeploymentsConfig) (d : Deployment)
    (fs : gmap string file) (p : string) :
  (∀ e, e ∈ deployments c → name e ≠ name d) → _path c = Some p → tmp ≠ p →
  let c' := (add_deployment safe_dump umask tmp c d fs).1.1 in
  let fs' := (add_deployment safe_dump umask tmp c d fs).1.2 in
  get_deployment c' (name d) = Returned d
  ∧ (name d ≠ "" → get_active c' = Returned d)
  ∧ (∀ n e, get_deployment c n = Returned e → get_deployment c' n = Returned e)
  ∧ add_deployment safe_dump umask tmp c' d fs'
    = (c', fs', Raised (ValueError ("Deployment " +:+ name d +:+ " already exists."))).
Proof.
  intros Hfresh Hp Hne c' fs'. subst c' fs'.
  rewrite (add_deployment_new safe_dump umask tmp c d fs p) by done. simpl.
  apply find_deployment_None in Hfresh.
  assert (get_deployment
            {| active := Some (name d); deployments := deployments c ++ [d];
               _path := Some p |} (name d) = Returned d) as Hget.
  { unfold get_deployment. simpl.
    rewrite (find_deployment_app_fresh _ _ _ Hfresh). by rewrite decide_True. }
  split_and!.
  - done.
  - intros Hn. unfold get_active. simpl.
    rewrite bool_decide_eq_false_2 by done. by rewrite Hget.
  - intros n e. unfold get_deployment. simpl.
    destruct (find_deployment (deployments c) n) eqn:E; [|done].
    intros [= <-]. by rewrite (find_deployment_app_old _ _ _ _ E).
  - apply add_deployment_exists. exists d. split; [|done].
    simpl. apply elem_of_app. right. apply list_elem_of_here.
Qed.

Lemma add_deployment_then_lookup_witness :
  get_active
    (add_deployment toy_dump 18 "/tmp/tmpab12"
       (registry None [] (Some "/home/u/deployments.yaml")) shared_storage
       old_registry).1.1
  = Returned shared_storage.
Proof.
  refine (proj1 (proj2 (add_deployment_then_lookup toy_dump 18 "/tmp/tmpab12"
            (registry None [] (Some "/home/u/deployments.yaml")) shared_storage
            old_registry "/home/u/deployments.yaml" _ eq_refl _)) _).
  - by intros e ?%elem_of_nil.
  - discriminate.
  - discriminate.
Defined.

(** X3: If the names of the registered deployments are pairwise distinct,
    they stay so after add_deployment, update_deployment and switch,
    whatever the argument and whether or not the call raises. *)
Theorem registry_names_stay_unique
    (safe_dump : option string → list Deployment → string)
    (umask : Z) (tmp : string) (c : DeploymentsConfig) (fs : gmap string file) :
  NoDup (name <$> deployments c) →
  (∀ d, NoDup (name <$> deployments (add_deployment safe_dump umask tmp c d fs).1.1))
  ∧ (∀ d, NoDup (name <$> deployments (update_deployment safe_dump umask tmp c d fs).1.1))
  ∧ (∀ n, NoDup (name <$> deployments (switch safe_dump umask tmp c n fs).1.1)).
Proof.
  intros Hnd. split_and!.
  - intros d. unfold add_deployment, get_deployment.
    destruct (find_deployment (deployments c) (name d)) eqn:E; simpl; [done|].
    destruct (write _ _ _ _ _) as [fs' r]. simpl. by apply NoDup_names_snoc.
  - intros d. unfold update_deployment.
    destruct (position (deployments c) (name d)) as [i|] eqn:E; simpl; [|done].
    destruct (write _ _ _ _ _) as [fs' r]. simpl.
    destruct (position_Some _ _ _ E) as (e & He & Hn & _).
    by rewrite (insert_same_name _ _ e d).
  - intros n. unfold switch. case_bool_decide; [done|].
    destruct (find_deployment (deployments c) n); [|done].
    by destruct (write _ _ _ _ _) as [fs' r].
Qed.

Lemma registry_names_stay_unique_witness :
  NoDup (name <$> deployments
           (add_deployment toy_dump 18 "/tmp/tmpab12"
              (registry None [shared_storage] None) shared_storage old_registry).1.1).
Proof.
  refine (proj1 (registry_names_stay_unique toy_dump 18 "/tmp/tmpab12"
                   (registry None [shared_storage] None) old_registry _) shared_storage).
  simpl. apply NoDup_singleton.
Defined.











(** X9: list_deployments passes the active name through and gives one entry
    per deployment, in order; an entry holds exactly the items of the
    deployment's dictionary whose key is name, url or type. *)
Theorem list_deployments_exposes_three_keys
    (dict_ : Deployment → dict) (c : DeploymentsConfig) :
  ld_active (list_deployments dict_ c) = active c
  ∧ length (ld_deployments (list_deployments dict_ c)) = length (deployments c)
  ∧ ∀ i d, deployments c !! i = Some d →
      ∃ entry, ld_deployments (list_deployments dict_ c) !! i = Some entry
        ∧ ∀ k v, (k, v) ∈ entry ↔
                 (k, v) ∈ dict_ d ∧ (k = "name" ∨ k = "url" ∨ k = "type").
Proof.
  unfold list_deployments. simpl. split_and!; [done|by rewrite length_map|].
  intros i d Hd. eexists. split.
  - change (map ?f ?l) with (f <$> l). by rewrite list_lookup_fmap, Hd.
  - intros k v. rewrite list_elem_of_filter. simpl. set_solver.
Qed.

Lemma list_deployments_exposes_three_keys_witness :
  ∃ entry,
    ld_deployments (list_deployments toy_dict (registry None [shared_storage] None))
      !! 0%nat = Some entry
    ∧ ∀ k v, (k, v) ∈ entry ↔
             (k, v) ∈ toy_dict shared_storage
             ∧ (k = "name" ∨ k = "url" ∨ k = "type").
Proof.
  destruct (list_deployments_exposes_three_keys toy_dict
              (registry None [shared_storage] None)) as (_ & _ & H).
  apply (H 0%nat shared_storage). reflexivity.
Defined.

(** X10: load_deployment returns the local deployment when the registry file
    does not exist or its active name is None, raises ValueError 'No active
    deployment found.' when the active name is the empty string, lets a load
    error through, and any deployment it returns is the local one or a
    registered one named by the active name. *)
Theorem load_deployment_fallback (local : Deployment) (exists_ : bool)
    (loaded : outcome DeploymentsConfig) :
  (exists_ = false → load_deployment local exists_ loaded = Returned local)
  ∧ (∀ c, exists_ = true → loaded = Returned c → active c = None →
       load_deployment local exists_ loaded = Returned local)
  ∧ (∀ c, exists_ = true → loaded = Returned c → active c = Some "" →
       load_deployment local exists_ loaded
       = Raised (ValueError "No active deployment found."))
  ∧ (∀ e, exists_ = true → loaded = Raised e →
       load_deployment local exists_ loaded = Raised e)
  ∧ (∀ d, load_deployment local exists_ loaded = Returned d →
       d = local
       ∨ ∃ c, loaded = Returned c ∧ active c = Some (name d) ∧ d ∈ deployments c).
Proof.
  unfold load_deployment. split_and!.
  - by intros ->.
  - by intros c -> -> ->.
  - intros c -> -> Ha. simpl. rewrite Ha. unfold get_active. by rewrite Ha.
  - by intros e -> ->.
  - intros d. destruct exists_; simpl; [|intros [= <-]; by left].
    destruct loaded as [c|e]; [|done].
    destruct (active c) eqn:E; [|intros [= <-]; by left].
    intros H. apply get_active_found in H. right. by exists c.
Qed.

Lemma load_deployment_fallback_witness :
  load_deployment shared_storage true (Returned (registry (Some "") [] None))
  = Raised (ValueError "No active deployment found.")
  ∧ load_deployment shared_storage false (Raised (ValueError "unread"))
    = Returned shared_storage.
Proof.
  destruct (load_deployment_fallback shared_storage true
              (Returned (registry (Some "") [] None))) as (_ & _ & H & _).
  destruct (load_deployment_fallback shared_storage false
              (Raised (ValueError "unread"))) as (H' & _).
  split; [exact (H _ eq_refl eq_refl eq_refl)|exact (H' eq_refl)].
Defined.

(** ** Names and configuration of the instance-recovery feature *)

Section dict_facts.
Context {V : Type}.
Implicit Types (d o : list (string * V)) (k : string) (v : V).

Lemma dict_get_set_eq k v d : dict_get k (dict_set k v d) = Some v.
Proof.
  induction d as [|[k' v'] d IH]; simpl.
  - by rewrite decide_True.
  - destruct (decide (k' = k)) as [->|Hk]; simpl.
    + by rewrite decide_True.
    + by rewrite decide_False.
Qed.

Lemma dict_get_set_ne k k' v d :
  k ≠ k' → dict_get k (dict_set k' v d) = dict_get k d.
Proof.
  intros Hne. induction d as [|[k1 v1] d IH]; simpl.
  - by rewrite decide_False.
  - destruct (decide (k1 = k')) as [->|Hk]; simpl.
    + by rewrite !decide_False.
    + destruct (decide (k1 = k)); [done|]. apply IH.
Qed.

Lemma dict_get_update_miss k d o :
  dict_get k o = None → dict_get k (dict_update d o) = dict_get k d.
Proof.
  unfold dict_update. revert d.
  induction o as [|[k1 v1] o IH]; intros d; simpl; [done|].
  destruct (decide (k1 = k)) as [->|Hk]; [done|].
  intros Ho. rewrite IH by done. apply dict_get_set_ne. congruence.
Qed.

Lemma dict_get_update_hit k v d o :
  NoDup o.*1 → dict_get k o = Some v → dict_get k (dict_update d o) = Some v.
Proof.
  unfold dict_update. revert d.
  induction o as [|[k1 v1] o IH]; intros d; simpl; [done|].
  intros [Hk1 Hnd]%NoDup_cons.
  destruct (decide (k1 = k)) as [->|Hk].
  - intros [= ->].
    assert (dict_get k o = None) as Hmiss.
    { clear -Hk1. induction o as [|[k2 v2] o IH]; simpl; [done|].
      simpl in Hk1. rewrite not_elem_of_cons in Hk1. destruct Hk1 as [? ?].
      rewrite decide_False by done. by apply IH. }
    pose proof (dict_get_update_miss k (dict_set k v d) o Hmiss) as H.
    unfold dict_update in H. rewrite H. apply dict_get_set_eq.
  - intros Ho. by apply IH.
Qed.

End dict_facts.

Ltac consul_cases d :=
  unfold set_consul_client_application_names, set_application_names,
    enabled_networks, enabled, resolvable, consul_servers_to_enable;
  destruct (get_space d MANAGEMENT) eqn:?, (get_space d STORAGE) eqn:?,
    (get_space d DATA) eqn:?;
  repeat case_bool_decide; simpl.

(** X11: set_consul_client_application_names has no duplicates and at most
    three names, contains consul-client-network exactly for the enabled
    networks, and is empty exactly when no network space is resolvable. *)
Theorem consul_client_application_names_shape (d : Deployment) :
  NoDup (set_consul_client_application_names d)
  ∧ (length (set_consul_client_application_names d) ≤ 3)%nat
  ∧ (∀ k, "consul-client-" +:+ value k ∈ set_consul_client_application_names d
          ↔ enabled d k)
  ∧ (set_consul_client_application_names d = [] ↔ ∀ n, ¬ resolvable d n).
Proof.
  split_and!.
  - consul_cases d; repeat constructor; set_solver.
  - consul_cases d; lia.
  - intros k. consul_cases d; destruct k; simpl; set_unfold; naive_solver.
  - consul_cases d;
      (split;
       [ intros Hnil n [? ?]; destruct n; simplify_eq/=; try congruence;
         set_unfold; naive_solver
       | intros Hall;
         first [ done
               | exfalso; by apply (Hall MANAGEMENT); eexists
               | exfalso; by apply (Hall STORAGE); eexists
               | exfalso; by apply (Hall DATA); eexists ] ]).
Qed.

Lemma consul_client_application_names_shape_witness :
  "consul-client-tenant" ∈ set_consul_client_application_names shared_storage
  ∧ set_consul_client_application_names
      (demo_deployment (NoSpace "") (NoSpace "") (NoSpace "")) = [].
Proof.
  destruct (consul_client_application_names_shape shared_storage) as (_ & _ & Hk & _).
  destruct (consul_client_application_names_shape
              (demo_deployment (NoSpace "") (NoSpace "") (NoSpace "")))
    as (_ & _ & _ & He).
  split.
  - apply (Hk CSN_TENANT). reflexivity.
  - apply He. intros n [s Hs]. destruct n; discriminate.
Defined.

(** X12: set_application_names always contains masakari and masakari-mysql-
    router, contains masakari-mysql exactly when the database topology is
    multi, contains consul-network exactly for the enabled networks, has no
    duplicates, and has two names plus one per enabled network plus one for
    the multi topology. *)
Theorem application_names_shape (topology : string) (d : Deployment) :
  "masakari" ∈ set_application_names topology d
  ∧ "masakari-mysql-router" ∈ set_application_names topology d
  ∧ ("masakari-mysql" ∈ set_application_names topology d ↔ topology = "multi")
  ∧ (∀ k, "consul-" +:+ value k ∈ set_application_names topology d ↔ enabled d k)
  ∧ NoDup (set_application_names topology d)
  ∧ length (set_application_names topology d)
    = (2 + length (set_consul_client_application_names d)
       + (if decide (topology = "multi") then 1 else 0))%nat.
Proof.
  split_and!.
  - consul_cases d; destruct (decide (topology = "multi")); set_solver.
  - consul_cases d; destruct (decide (topology = "multi")); set_solver.
  - consul_cases d; destruct (decide (topology = "multi")); set_unfold; naive_solver.
  - intros k. consul_cases d; destruct (decide (topology = "multi")), k; simpl;
      set_unfold; naive_solver.
  - consul_cases d; destruct (decide (topology = "multi")); simpl;
      repeat constructor; set_solver.
  - consul_cases d; destruct (decide (topology = "multi")); done.
Qed.

Lemma application_names_shape_witness :
  "masakari-mysql" ∈ set_application_names "multi" shared_storage
  ∧ "consul-tenant" ∈ set_application_names "single" shared_storage.
Proof.
  destruct (application_names_shape "multi" shared_storage) as (_ & _ & Hm & _).
  destruct (application_names_shape "single" shared_storage) as (_ & _ & _ & Hk & _).
  split; [by apply Hm|]. apply (Hk CSN_TENANT). reflexivity.
Defined.


Lemma dict_update_nil_l (o : dict) k :
  NoDup o.*1 → dict_get k (dict_update [] o) = dict_get k o.
Proof.
  intros Hnd. destruct (dict_get k o) as [v|] eqn:E.
  - by apply dict_get_update_hit.
  - by rewrite dict_get_update_miss.
Qed.

(** X13: When the feature manifest knows the charm, get_config_from_manifest
    gives for every key the value of the charm's config-map section of that
    network if the section has the key, and the value of the charm's own
    config otherwise (None if neither has it). *)
Theorem config_map_takes_precedence (self : InstanceRecoveryFeature)
    (charm : string) (network : ConsulServerNetworks)
    (fm : FeatureManifest) (cm : CharmManifest) (k : string) :
  get_feature (feature_manifest self) feature_name = Some fm →
  dict_get charm (charms (software fm)) = Some cm →
  NoDup (config_map_section cm network).*1 →
  NoDup (default [] (config cm)).*1 →
  dict_get k (get_config_from_manifest self charm network)
  = match dict_get k (config_map_section cm network) with
    | Some v => Some v
    | None => dict_get k (default [] (config cm))
    end.
Proof.
  intros Hfm Hcm Hs Hc. unfold get_config_from_manifest. rewrite Hfm, Hcm.
  unfold config_map_section in *.
  assert (∀ base : dict,
            dict_get k
              match model_extra cm with
              | Some ((_ :: _) as extra) =>
                  dict_update base
                    (default [] (dict_get ("consul-" +:+ value network)
                                   (default [] (dict_get "config-map" extra))))
              | _ => base
              end
            = match dict_get k
                      (default [] (dict_get ("consul-" +:+ value network)
                         (default [] (dict_get "config-map"
                                        (default [] (model_extra cm)))))) with
              | Some v => Some v
              | None => dict_get k base
              end) as Hextra.
  { intros base. destruct (model_extra cm) as [[|x extra]|]; try done.
    change (default [] (Some (x :: extra))) with (x :: extra) in *.
    cbv beta iota.
    remember (default [] (dict_get ("consul-" +:+ value network)
                (default [] (dict_get "config-map" (x :: extra))))) as sec.
    destruct (dict_get k sec) as [v|] eqn:E.
    - by apply dict_get_update_hit.
    - by apply dict_get_update_miss. }
  rewrite Hextra. destruct (dict_get k _) as [v|]; [done|].
  destruct (config cm) as [[|x c]|]; try done.
  change (default [] (Some (x :: c))) with (x :: c) in *. cbv beta iota.
  by apply dict_update_nil_l.
Qed.

Lemma config_map_takes_precedence_witness :
  dict_get "serf-lan-port" (get_config_from_manifest layered_feature "consul-client" CSN_TENANT)
  = Some (VInt 9311).
Proof.
  refine (config_map_takes_precedence layered_feature "consul-client" CSN_TENANT
            _ layered_charm "serf-lan-port" eq_refl eq_refl _ _).
  - simpl. apply NoDup_singleton.
  - simpl. repeat constructor; set_solver.
Defined.

(** X14: When the management space cannot be resolved while the data or the
    storage space can (backend config at hand), DeployConsulClientStep.run
    lets the ValueError of get_space escape: nothing is applied or waited
    for and no Result is returned. *)
Theorem consul_step_needs_management_space (self : DeployConsulClientStep)
    (status : option Status) (l : Loop) (msg : string) (cfg : dict) :
  get_space (dc_deployment self) MANAGEMENT = NoSpace msg →
  resolvable (dc_deployment self) DATA ∨ resolvable (dc_deployment self) STORAGE →
  backend_config (dc_openstack_tfhelper self) = Returned cfg →
  DeployConsulClientStep_run self status l = ([], l, Raised (ValueError msg)).
Proof.
  intros Hm Hres Hcfg.
  unfold DeployConsulClientStep_run, _get_tfvars, network_block, space,
    consul_servers_to_enable, resolvable in *.
  rewrite Hm, Hcfg.
  destruct (get_space (dc_deployment self) STORAGE) eqn:?,
    (get_space (dc_deployment self) DATA) eqn:?;
    repeat case_bool_decide; simpl; try done;
    try (exfalso; set_unfold; naive_solver).
Qed.

Lemma consul_step_needs_management_space_witness :
  DeployConsulClientStep_run
    {| dc_deployment := demo_deployment (NoSpace "no management space") (Space "beta")
                          (NoSpace "");
       dc_feature := demo_feature;
       dc_tfhelper := demo_tfhelper (Returned tt) (Returned tt);
       dc_openstack_tfhelper := demo_tfhelper (Returned tt) (Returned tt);
       dc_jhelper := demo_jhelper (Returned tt) [];
       dc_app_desired_status := ["active"] |}
    None (idle_loop false)
  = ([], idle_loop false, Raised (ValueError "no management space")).
Proof.
  apply (consul_step_needs_management_space _ None (idle_loop false)
           "no management space" []).
  - reflexivity.
  - left. by exists "beta".
  - reflexivity.
Defined.

(** ** Terraform variables of the instance-recovery feature *)

(** X15: When _get_tfvars returns, each enable-consul-network flag is the
    truth value of that network in consul_servers_to_enable, principal-
    application is openstack-hypervisor, the config map has an entry for
    exactly the enabled networks, and the endpoint bindings of an enabled
    network are the management space followed by the consul endpoint on that
    network's own space (no bindings for a network that is not enabled). *)
Theorem get_tfvars_follow_enabled_networks (self : DeployConsulClientStep)
    (l : Loop) (tfvars : dict) :
  result_of (_get_tfvars self l) = Returned tfvars →
  let d := dc_deployment self in
  (∀ k, dict_get ("enable-consul-" +:+ value k) tfvars
        = Some (VBool (truthy (get k (consul_servers_to_enable d)))))
  ∧ dict_get "principal-application" tfvars = Some (VStr "openstack-hypervisor")
  ∧ ∃ ccm cebm,
      dict_get "consul-config-map" tfvars = Some (VDict ccm)
      ∧ dict_get "consul-endpoint-bindings-map" tfvars = Some (VDict cebm)
      ∧ ∀ k, (is_Some (dict_get ("consul-" +:+ value k) ccm) ↔ enabled d k)
             ∧ (enabled d k →
                ∃ m s, get_space d MANAGEMENT = Space m
                  ∧ get_space d (network_of k) = Space s
                  ∧ dict_get ("consul-" +:+ value k) cebm
                    = Some (VList [VDict [("space", VStr m)];
                                   VDict [("endpoint", VStr "consul");
                                          ("space", VStr s)]]))
             ∧ (¬ enabled d k → dict_get ("consul-" +:+ value k) cebm = None).
Proof.
  unfold _get_tfvars, network_block, space, consul_servers_to_enable, enabled,
    result_of.
  unfold mbind, mret, M_bind, M_ret, effects.bind, effects.ret, lift. simpl.
  destruct (backend_config _) as [cfg|e]; simpl; [|done].
  destruct (get_space (dc_deployment self) MANAGEMENT) eqn:Hm,
    (get_space (dc_deployment self) STORAGE) eqn:Hs,
    (get_space (dc_deployment self) DATA) eqn:Hd;
    repeat case_bool_decide; simpl; try rewrite Hm; try rewrite Hs; try rewrite Hd;
    simpl; try done.
  all: intros [= <-].
  all: split; [intros k; destruct k; reflexivity|].
  all: split; [reflexivity|].
  all: do 2 eexists; (split; [reflexivity|]); (split; [reflexivity|]).
  all: intros k; destruct k; simpl;
    repeat match goal with
           | |- context [get ?K (consul_servers_to_enable ?D) = Some true] =>
               change (get K (consul_servers_to_enable D) = Some true)
                 with (enabled D K)
           end;
    rewrite ?enabled_management, ?enabled_storage, ?enabled_tenant;
    unfold resolvable; rewrite ?Hm, ?Hs, ?Hd; set_unfold.
  all: split_and!;
         [ split; intros Hx; first [ done | by destruct Hx | naive_solver ]
         | intros Hx; first [ by do 2 eexists | naive_solver ]
         | intros Hx; first [ done | naive_solver ] ].
Qed.

Lemma get_tfvars_follow_enabled_networks_witness :
  ∃ tfvars,
    result_of (_get_tfvars (consul_step (Returned tt) (Returned tt)) (idle_loop false))
      = Returned tfvars
    ∧ dict_get "enable-consul-storage" tfvars = Some (VBool false)
    ∧ dict_get "enable-consul-tenant" tfvars = Some (VBool true).
Proof.
  eexists. split; [reflexivity|].
  destruct (get_tfvars_follow_enabled_networks
              (consul_step (Returned tt) (Returned tt)) (idle_loop false) _ eq_refl)
    as (Hk & _).
  split; [exact (Hk CSN_STORAGE)|exact (Hk CSN_TENANT)].
Defined.

(** X16: In set_tfvars_on_enable each enable-consul-network flag is the
    truth value of that network in consul_servers_to_enable, enable-masakari
    is true, consul-config-map has an entry for exactly the enabled
    networks, and every boolean flag it sets is set to false by
    set_tfvars_on_disable. *)
Theorem server_tfvars_follow_enabled_networks (self : InstanceRecoveryFeature)
    (d : Deployment) :
  (∀ k, dict_get ("enable-consul-" +:+ value k) (set_tfvars_on_enable self d)
        = Some (VBool (truthy (get k (consul_servers_to_enable d)))))
  ∧ dict_get "enable-masakari" (set_tfvars_on_enable self d) = Some (VBool true)
  ∧ (∃ ccm, dict_get "consul-config-map" (set_tfvars_on_enable self d) = Some (VDict ccm)
       ∧ ∀ k, is_Some (dict_get ("consul-" +:+ value k) ccm) ↔ enabled d k)
  ∧ (∀ key b, dict_get key (set_tfvars_on_enable self d) = Some (VBool b) →
       dict_get key (set_tfvars_on_disable self d) = Some (VBool false)).
Proof.
  unfold set_tfvars_on_enable, server_block, set_tfvars_on_disable.
  split_and!.
  - intros k. destruct k; consul_cases d; reflexivity.
  - consul_cases d; reflexivity.
  - consul_cases d; (eexists; split; [reflexivity|]); intros k; destruct k; simpl;
      (split; intros Hx; first [ done | by destruct Hx | by eexists
                               | exfalso; set_unfold; naive_solver ]).
  - intros key b.
    consul_cases d; repeat (case_decide; simplify_eq/=; try done).
Qed.

Lemma server_tfvars_follow_enabled_networks_witness :
  dict_get "enable-consul-storage" (set_tfvars_on_enable demo_feature shared_storage)
  = Some (VBool false)
  ∧ dict_get "enable-consul-storage" (set_tfvars_on_disable demo_feature shared_storage)
    = Some (VBool false).
Proof.
  destruct (server_tfvars_follow_enabled_networks demo_feature shared_storage)
    as (Hk & _ & _ & Hd).
  split; [exact (Hk CSN_STORAGE)|].
  exact (Hd "enable-consul-storage" false (Hk CSN_STORAGE)).
Defined.

(** ** Step bodies *)

Ltac close_stopped :=
  run_step; split_outcomes; simpl; intros; simplify_eq;
  (split_and!; [done|set_solver|set_solver|set_solver|naive_solver]).

Lemma stopped_DeployConsulClient self status l e :
  provisioning_raised (trace_of (DeployConsulClientStep_run self status l)) = Some e →
  stopped_at_provisioning e (DeployConsulClientStep_run self status l).
Proof.
  unfold stopped_at_provisioning.
  enter_consul_step self l; [|done]. close_stopped.
Qed.

Lemma stopped_other s status l e :
  match s with DeployConsulClient _ => False | _ => True end →
  provisioning_raised (trace_of (run_of s status l)) = Some e →
  stopped_at_provisioning e (run_of s status l).
Proof.
  unfold stopped_at_provisioning. destruct s; intros []; simpl.
  - unfold RemoveConsulClientStep_run. close_stopped.
  - unfold DeployObservabilityStackStep_run, cos_tfvars. close_stopped.
  - unfold UpdateObservabilityModelConfigStep_run, cos_tfvars. close_stopped.
  - unfold DeployGrafanaAgentStep_run. close_stopped.
  - unfold RemoveObservabilityStackStep_run. close_stopped.
  - unfold RemoveGrafanaAgentStep_run. close_stopped.
  - by rewrite provisioning_DeployCertificates.
Qed.

(** X17: In every step body, when the provisioning call (apply or destroy)
    raises, it is the last thing the step does: nothing is waited for, no
    status poller is started, no configuration is stored, and the step
    either returns FAILED with the exception's text or lets that exception
    escape. *)
Theorem provisioning_failure_stops_the_step (s : Step) status l e :
  provisioning_raised (trace_of (run_of s status l)) = Some e →
  last (trace_of (run_of s status l)) = Some (EvRaised e)
  ∧ (∀ w, EvWait w ∉ trace_of (run_of s status l))
  ∧ (∀ t apps q, EvTask t apps q ∉ trace_of (run_of s status l))
  ∧ (∀ k v, EvUpdateConfig k v ∉ trace_of (run_of s status l))
  ∧ (result_of (run_of s status l) = Raised e
     ∨ result_of (run_of s status l) = Returned (mkResult FAILED (str e))).
Proof.
  intros H. destruct s;
    first [ by apply stopped_DeployConsulClient | by apply stopped_other ].
Qed.

Lemma provisioning_failure_stops_the_step_witness :
  last (trace_of (run_of apply_fails None (idle_loop false)))
  = Some (EvRaised (TerraformException "apply failed...")).
Proof.
  exact (proj1 (provisioning_failure_stops_the_step apply_fails None (idle_loop false)
                  (TerraformException "apply failed...") eq_refl)).
Defined.


Ltac close_honest :=
  run_step; split_outcomes; simpl; intros; simplify_eq;
  (split; [done|]); intros; (split; [done|]); simplify_eq/=; set_solver.

Lemma honest_DeployConsulClient self status l :
  honest_result (DeployConsulClientStep_run self status l).
Proof.
  unfold honest_result. enter_consul_step self l; [|done]. close_honest.
Qed.

Lemma honest_other s status l :
  match s with DeployConsulClient _ => False | _ => True end →
  honest_result (run_of s status l).
Proof.
  unfold honest_result. destruct s; intros []; simpl.
  - unfold RemoveConsulClientStep_run. close_honest.
  - unfold DeployObservabilityStackStep_run, cos_tfvars. close_honest.
  - unfold UpdateObservabilityModelConfigStep_run, cos_tfvars. close_honest.
  - unfold DeployGrafanaAgentStep_run. close_honest.
  - unfold RemoveObservabilityStackStep_run. close_honest.
  - unfold RemoveGrafanaAgentStep_run. close_honest.
  - unfold DeployCertificatesProviderApplicationStep_run, connect, close. close_honest.
Qed.

(** X18: No step body returns SKIPPED from run, and a step that returns
    COMPLETED carries an empty message and no collaborator call raised
    during it. *)
Theorem run_results_are_honest (s : Step) status l res :
  result_of (run_of s status l) = Returned res →
  result_type res ≠ SKIPPED
  ∧ (result_type res = COMPLETED →
       message res = "" ∧ ∀ e, EvRaised e ∉ trace_of (run_of s status l)).
Proof.
  revert res.
  destruct s; first [ by apply honest_DeployConsulClient | by apply honest_other ].
Qed.

Lemma run_results_are_honest_witness :
  EvRaised (JujuWaitException "timed out")
    ∉ trace_of (run_of healthy_consul None (idle_loop false)).
Proof.
  exact (proj2 (proj2 (run_results_are_honest healthy_consul None (idle_loop false)
                         (Result_ COMPLETED) eq_refl) eq_refl)
           (JujuWaitException "timed out")).
Defined.

(** X19: RemoveConsulClientStep.run stores configuration exactly when it
    returns COMPLETED; what it stores is set_tfvars_on_disable under the
    consul client config key, as its last action, after the destroy and with
    nothing having raised. *)
Theorem remove_consul_client_updates_config_last (self : RemoveConsulClientStep)
    status l :
  let r := RemoveConsulClientStep_run self status l in
  (result_of r = Returned (Result_ COMPLETED) ↔ ∃ k v, EvUpdateConfig k v ∈ trace_of r)
  ∧ (∀ k v, EvUpdateConfig k v ∈ trace_of r →
       k = CONSUL_CLIENT_CONFIG_KEY
       ∧ v = set_tfvars_on_disable (rc_feature self) (rc_deployment self)
       ∧ last (trace_of r) = Some (EvUpdateConfig k v)
       ∧ EvDestroy (plan (rc_tfhelper self)) ∈ trace_of r
       ∧ ∀ e, EvRaised e ∉ trace_of r).
Proof.
  unfold RemoveConsulClientStep_run. run_step. split_outcomes; simpl;
    (split; [split; [intros; simplify_eq;
                     try (do 2 eexists;
                          repeat first [ apply list_elem_of_here
                                       | apply list_elem_of_further ])
                    | intros (k & v & Hin); set_unfold; naive_solver]
            | intros k v Hin; set_unfold; naive_solver]).
Qed.

Lemma remove_consul_client_updates_config_last_witness :
  ∃ k v, EvUpdateConfig k v
         ∈ trace_of (RemoveConsulClientStep_run
                       {| rc_deployment := shared_storage; rc_feature := demo_feature;
                          rc_tfhelper := demo_tfhelper (Returned tt) (Returned tt);
                          rc_jhelper := demo_jhelper (Returned tt) [] |}
                       None (idle_loop false)).
Proof.
  apply (proj1 (remove_consul_client_updates_config_last
                  {| rc_deployment := shared_storage; rc_feature := demo_feature;
                     rc_tfhelper := demo_tfhelper (Returned tt) (Returned tt);
                     rc_jhelper := demo_jhelper (Returned tt) [] |}
                  None (idle_loop false))).
  reflexivity.
Defined.

Ltac cert_is_skip :=
  unfold DeployCertificatesProviderApplicationStep_is_skip, connect, close,
    get_application, on_application_not_found, cp_app; run_step.

(** X20: DeployCertificatesProviderApplicationStep.is_skip disconnects the
    model whenever it obtained one (and a failing disconnect replaces the
    result), never disconnects when get_model raised, and records no other
    action (no deploy, no wait). *)
Theorem is_skip_releases_the_model
    (self : DeployCertificatesProviderApplicationStep) status l :
  let r := DeployCertificatesProviderApplicationStep_is_skip self status l in
  (∀ model, get_model (cp_jhelper self) (cp_model self) = Returned model →
     EvDisconnect (model_name model) ∈ trace_of r
     ∧ ∀ e, disconnect model = Raised e → result_of r = Raised e)
  ∧ (∀ e, get_model (cp_jhelper self) (cp_model self) = Raised e →
       result_of r = Raised e ∧ ∀ m, EvDisconnect m ∉ trace_of r)
  ∧ (∀ ev, ev ∈ trace_of r →
       (∃ m, ev = EvGetModel m) ∨ (∃ m, ev = EvDisconnect m) ∨ (∃ e, ev = EvRaised e)).
Proof.
  cert_is_skip. split_and!.
  - intros model ->. simpl.
    destruct (disconnect model) as [[]|e] eqn:Hd; case_bool_decide; simpl;
      (split; [set_solver|]); intros e' ?; by simplify_eq.
  - intros e ->. simpl. split; [done|set_solver].
  - intros ev. destruct (get_model _ _) as [model|e]; simpl.
    + destruct (disconnect model) as [[]|e]; case_bool_decide; simpl;
        set_unfold; naive_solver.
    + set_unfold; naive_solver.
Qed.

Lemma is_skip_releases_the_model_witness :
  EvDisconnect "controller"
  ∈ trace_of (DeployCertificatesProviderApplicationStep_is_skip
                (certificates_step ["traefik"]) None (idle_loop false)).
Proof.
  exact (proj1 (proj1 (is_skip_releases_the_model (certificates_step ["traefik"])
                         None (idle_loop false)) (demo_model ["traefik"]) eq_refl)).
Defined.

Ltac cert_run :=
  unfold DeployCertificatesProviderApplicationStep_run, connect, close; run_step.

(** X21: DeployCertificatesProviderApplicationStep.run returns FAILED 'No
    machines found in model model' without deploying when the model has no
    machines; whenever it deploys, it deploys the tls-operator application
    of charm sunbeam-ssc into its model on the first machine only, after the
    model has been disconnected. *)
Theorem certificates_deploys_to_first_machine
    (self : DeployCertificatesProviderApplicationStep) status l :
  let r := DeployCertificatesProviderApplicationStep_run self status l in
  (∀ model, get_model (cp_jhelper self) (cp_model self) = Returned model →
     get_machines (cp_jhelper self) model = Returned [] →
     disconnect model = Returned tt →
     result_of r
     = Returned (mkResult FAILED ("No machines found in " +:+ cp_model self +:+ " model"))
     ∧ ∀ a c m to, EvDeploy a c m to ∉ trace_of r)
  ∧ (∀ a c m to, EvDeploy a c m to ∈ trace_of r →
       a = APPLICATION ∧ c = CHARM ∧ m = cp_model self
       ∧ ∃ model first rest pre post,
           get_model (cp_jhelper self) (cp_model self) = Returned model
           ∧ get_machines (cp_jhelper self) model = Returned (first :: rest)
           ∧ to = [first]
           ∧ trace_of r = pre ++ EvDeploy a c m to :: post
           ∧ EvDisconnect (model_name model) ∈ pre).
Proof.
  cert_run. split.
  - intros model -> Hm Hd. simpl. rewrite Hm. simpl. rewrite Hd. simpl.
    split; [done|set_solver].
  - intros a c m to.
    destruct (get_model _ _) as [model|e]; simpl; [|set_solver].
    destruct (get_machines _ model) as [[|first rest]|e] eqn:Hgm; simpl;
      split_outcomes; simpl; intros Hin; set_unfold in Hin;
      destruct_or?; simplify_eq;
      (split_and!; try done);
      exists model, first, rest; eexists (_ :: _ :: _ :: _ :: []); eexists;
      (split_and!; [done|done|done|reflexivity|set_solver]).
Qed.

Lemma certificates_deploys_to_first_machine_witness :
  EvDeploy "tls-operator" "sunbeam-ssc" "controller" ["0"]
    ∈ trace_of (DeployCertificatesProviderApplicationStep_run
                  charmed_certificates_step None (idle_loop false))
  ∧ ∃ model first rest,
      get_machines (cp_jhelper charmed_certificates_step) model
        = Returned (first :: rest)
      ∧ ["0"] = [first].
Proof.
  assert (EvDeploy "tls-operator" "sunbeam-ssc" "controller" ["0"]
          ∈ trace_of (DeployCertificatesProviderApplicationStep_run
                        charmed_certificates_step None (idle_loop false))) as Hin.
  { vm_compute. do 4 apply list_elem_of_further. apply list_elem_of_here. }
  split; [exact Hin|].
  destruct (proj2 (certificates_deploys_to_first_machine charmed_certificates_step
                     None (idle_loop false)) _ _ _ _ Hin)
    as (_ & _ & _ & model & first & rest & _ & _ & _ & Hm & Hto & _).
  by exists model, first, rest.
Defined.

(** ** The observability plugin *)

Lemma cos_tfvars_overrides (plugin : ObservabilityPlugin) (l : Loop) :
  match get_proxy_settings plugin with
  | Returned _ =>
      ∃ tfvars, cos_tfvars plugin l = ([], l, Returned tfvars)
                ∧ cos_overrides plugin tfvars
  | Raised e => cos_tfvars plugin l = ([], l, Raised e)
  end.
Proof.
  unfold cos_tfvars, cos_overrides.
  unfold mbind, mret, M_bind, M_ret, effects.bind, effects.ret, lift. simpl.
  destruct (get_proxy_settings plugin) as [proxy|e]; simpl; [|done].
  eexists. split; [reflexivity|]. split_and!; try reflexivity.
  eexists _, proxy. split_and!; try reflexivity.
  - unfold dict_update. simpl. apply dict_get_set_eq.
  - intros k Hk. unfold dict_update. simpl. by apply dict_get_set_ne.
Qed.

(** X22: Whatever DeployObservabilityStackStep.run and
    UpdateObservabilityModelConfigStep.run apply is the cos plan with model,
    cloud and credential (cloud name plus suffix) set and a model config in
    which workload-storage is the default storage class, overriding the
    proxy settings, every other key being the converted proxy setting; when
    reading the proxy settings raises, neither step applies anything and the
    exception escapes. *)
Theorem observability_model_pins_storage_class (self : ObservabilityStep)
    (status : option Status) (l : Loop) :
  let plugin := os_plugin self in
  (∀ tfplan cfg tfvars args,
     EvApply tfplan cfg tfvars args
       ∈ trace_of (DeployObservabilityStackStep_run self status l) →
     tfplan = tfplan_cos plugin ∧ cfg = COS_CONFIG_KEY ∧ args = []
     ∧ cos_overrides plugin tfvars)
  ∧ (∀ tfplan cfg tfvars args,
       EvApply tfplan cfg tfvars args
         ∈ trace_of (UpdateObservabilityModelConfigStep_run plugin status l) →
       tfplan = tfplan_cos plugin ∧ cfg = COS_CONFIG_KEY
       ∧ args = ["-target=juju_model.cos"]
       ∧ cos_overrides plugin tfvars)
  ∧ (∀ e, get_proxy_settings plugin = Raised e →
       DeployObservabilityStackStep_run self status l = ([], l, Raised e)
       ∧ UpdateObservabilityModelConfigStep_run plugin status l = ([], l, Raised e)).
Proof.
  intros plugin. pose proof (cos_tfvars_overrides plugin l) as Hc.
  unfold DeployObservabilityStackStep_run, UpdateObservabilityModelConfigStep_run.
  fold plugin.
  unfold mbind at 1 5. unfold M_bind, effects.bind.
  unfold mbind at 6 7. unfold M_bind, effects.bind.
  destruct (get_proxy_settings plugin) as [proxy|e].
  - destruct Hc as (tfvars & -> & Hov). split_and!; [| |done].
    + intros tfplan cfg tfvars' args. run_step. split_outcomes; simpl;
        intros Hin; set_unfold in Hin; destruct_or?; simplify_eq; done.
    + intros tfplan cfg tfvars' args. run_step. split_outcomes; simpl;
        intros Hin; set_unfold in Hin; destruct_or?; simplify_eq; done.
  - rewrite Hc. split_and!.
    + intros ????. simpl. set_solver.
    + intros ????. simpl. set_solver.
    + intros e' [= <-]. unfold mbind, M_bind, effects.bind. by rewrite Hc.
Qed.

Lemma observability_model_pins_storage_class_witness :
  cos_overrides (demo_plugin (Returned tt) (Returned tt))
    [("model", VStr "observability"); ("cloud", VStr "k8s");
     ("credential", VStr "k8s-creds");
     ("config", VDict [("workload-storage", VStr "hostpath")])].
Proof.
  apply (proj1 (proj2 (observability_model_pins_storage_class
                         (cos_step (Returned tt) (Returned tt) (Returned tt)) None
                         (idle_loop false)))
           "cos-plan" "TerraformVarsPluginObservabilityPlanCos"
           [("model", VStr "observability"); ("cloud", VStr "k8s");
            ("credential", VStr "k8s-creds");
            ("config", VDict [("workload-storage", VStr "hostpath")])]
           ["-target=juju_model.cos"]).
  vm_compute. apply list_elem_of_here.
Defined.

(** X23: Given the cos helper and its output,
    ObservabilityPlugin.set_tfvars_on_enable returns exactly when the output
    holds the three offer urls; it then sets the same keys as
    set_tfvars_on_disable, with enable-observability true and the three urls
    taken from the output; when it raises, it is a KeyError for an offer url
    the output lacks. *)
Theorem plugin_tfvars_need_all_offers (plugin : ObservabilityPlugin)
    (output : TerraformHelper → outcome dict) (helper : TerraformHelper) (o : dict) :
  get_tfhelper (plugin_manifest plugin) (tfplan_cos plugin) = Returned helper →
  output helper = Returned o →
  (∀ tfvars, plugin_set_tfvars_on_enable plugin output = Returned tfvars →
     tfvars.*1 = (plugin_set_tfvars_on_disable plugin).*1
     ∧ dict_get "enable-observability" tfvars = Some (VBool true)
     ∧ dict_get "grafana-dashboard-offer-url" tfvars
       = dict_get "grafana-dashboard-offer-url" o
     ∧ dict_get "logging-offer-url" tfvars = dict_get "loki-logging-offer-url" o
     ∧ dict_get "receive-remote-write-offer-url" tfvars
       = dict_get "prometheus-receive-remote-write-offer-url" o)
  ∧ ((∃ tfvars, plugin_set_tfvars_on_enable plugin output = Returned tfvars) ↔
     is_Some (dict_get "grafana-dashboard-offer-url" o)
     ∧ is_Some (dict_get "loki-logging-offer-url" o)
     ∧ is_Some (dict_get "prometheus-receive-remote-write-offer-url" o))
  ∧ (∀ e, plugin_set_tfvars_on_enable plugin output = Raised e →
       ∃ key, e = OtherException "KeyError" key ∧ dict_get key o = None).
Proof.
  intros Hh Ho. unfold plugin_set_tfvars_on_enable, getitem.
  rewrite Hh, Ho.
  destruct (dict_get "grafana-dashboard-offer-url" o) as [v1|] eqn:E1;
    [destruct (dict_get "loki-logging-offer-url" o) as [v2|] eqn:E2;
      [destruct (dict_get "prometheus-receive-remote-write-offer-url" o)
         as [v3|] eqn:E3|]|].
  all: split_and!;
    [ intros tfvars H; simplify_eq; by split_and!
    | split;
      [ intros [? ?]; simplify_eq; by split_and!
      | intros ([? ?] & [? ?] & [? ?]); simplify_eq; by eexists ]
    | intros e H; simplify_eq; by eexists ].
Qed.

Lemma plugin_tfvars_need_all_offers_witness :
  ∃ key, OtherException "KeyError" "loki-logging-offer-url"
         = OtherException "KeyError" key
         ∧ dict_get key [("grafana-dashboard-offer-url", VStr "admin/cos.grafana")]
           = None.
Proof.
  destruct (plugin_tfvars_need_all_offers (demo_plugin (Returned tt) (Returned tt))
              (λ _, Returned [("grafana-dashboard-offer-url", VStr "admin/cos.grafana")])
              (demo_tfhelper (Returned tt) (Returned tt))
              [("grafana-dashboard-offer-url", VStr "admin/cos.grafana")]
              eq_refl eq_refl) as (_ & _ & H).
  apply H. reflexivity.
Defined.


